(** * Iceberg Metadata Insights: a shallow embedding of [src/app.py]

    The dashboard's [main] is a straight-line Streamlit script: it lists
    schemas and tables through a Trino cursor, offers maintenance buttons in
    the sidebar, and renders statistics, a snapshot timeline and twelve
    metadata tabs for the selected table.  The embedding keeps that shape:
    a state-and-exception monad over a world made of the cursor, the log of
    statements sent to the engine, and the widgets drawn so far. *)

From Stdlib Require Import String Ascii List Bool Arith ZArith NArith Lia.
From Stdlib Require Import DecimalString.
From Stdlib Require Import QArith Qreals Reals Lra Lqa.
From Stdlib Require Import Sorting.Sorted Sorting.Permutation.
Import ListNotations.

Close Scope Q_scope.

Local Open Scope string_scope.
Local Open Scope list_scope.

(** ** Python values, exceptions and results *)

Module Py.

(** A cell of a result row, or the value of a widget: text, an integer, or
    [None]. *)
Inductive value : Type :=
| VStr (s : string)
| VInt (z : Z)
| VNone.

(** [str(v)], which is also what an f-string placeholder [{v}] inserts. *)
Definition str (v : value) : string :=
  match v with
  | VStr s => s
  | VInt z => NilZero.string_of_int (Z.to_int z)
  | VNone => "None"
  end.

(** Truthiness, as [if table:] reads it. *)
Definition truthy (v : value) : bool :=
  match v with
  | VStr s => negb (String.eqb s "")
  | VInt z => negb (Z.eqb z 0)
  | VNone => false
  end.

(** The classes of [Exception] the script can meet.  All of them are caught
    by [except Exception]. *)
Inductive exn_class : Type :=
| EngineError   (* raised by the Trino client on a failed statement *)
| IndexError
| ValueError
| KeyError
| ConnectionError    (* the engine cannot be reached *)
| TypeError
| AttributeError.

Record exn : Type := Exn { exn_kind : exn_class; exn_message : string }.

(** [str(e)] *)
Definition str_exn (e : exn) : string := exn_message e.

Inductive result (A : Type) : Type :=
| Ok (a : A)
| Raise (e : exn).
Arguments Ok {A} a.
Arguments Raise {A} e.

(** [seq[i]] on a list: [IndexError] past the end. *)
Definition index {A : Type} (l : list A) (i : nat) : result A :=
  match nth_error l i with
  | Some a => Ok a
  | None => Raise (Exn IndexError "list index out of range")
  end.

End Py.
Import Py.

(** ** pandas: the part of [DataFrame] the script uses *)

Module Pandas.

Definition row : Type := list value.

Record DataFrame : Type := mkDataFrame {
  df_columns : list string;
  df_rows : list row
}.

(** Width of the widest row: what pandas takes as the data's column count. *)
Definition data_width (rows : list row) : nat :=
  fold_right (fun r w => Nat.max (length r) w) 0 rows.

(** Right-pad a short row with [None]. *)
Definition pad (w : nat) (r : row) : row :=
  r ++ repeat VNone (w - length r).

(** [pd.DataFrame(rows, columns=names)] for a list of tuples: no rows give an
    empty frame with the given columns; otherwise the number of names must be
    the data's width, else pandas raises [ValueError].  The frame's shape is
    what is modelled: the cells stand as the engine gave them, where pandas
    may convert a column to another dtype. *)
Definition mk (rows : list row) (names : list string) : result DataFrame :=
  match rows with
  | [] => Ok (mkDataFrame names [])
  | _ :: _ =>
      if Nat.eqb (data_width rows) (length names)
      then Ok (mkDataFrame names (map (pad (length names)) rows))
      else Raise (Exn ValueError
                    (NilZero.string_of_uint (Nat.to_uint (length names))
                     ++ " columns passed, passed data had "
                     ++ NilZero.string_of_uint (Nat.to_uint (data_width rows))
                     ++ " columns"))
  end.

(** [df.empty]: true when either axis has no entry. *)
Definition empty (df : DataFrame) : bool :=
  match df_rows df, df_columns df with
  | _ :: _, _ :: _ => false
  | _, _ => true
  end.

End Pandas.
Import Pandas.

(** ** The engine, the screen and the script monad *)

(** What [cursor.execute(sql).fetchall()] comes back with. *)
Inductive Response : Type :=
| Rows (rows : list row)
| Fails (e : exn).

(** Where a widget is drawn. *)
Inductive Container : Type :=
| Page
| Sidebar
| Tab (i : nat).

Inductive Chart : Type :=
| Scatter (data : DataFrame) (x y color : string) (hover_data : list string)
          (title : string)
| Histogram (data : DataFrame) (x : string) (title : string) (nbins : nat).

Inductive Widget : Type :=
| Title (text : string)
| Header (text : string)
| Subheader (text : string)
| Divider
| Spinner (text : string)
| Success (text : string)
| Info (text : string)
| Error (text : string)
| Code (body : value) (language : string)
| Metric (label value : string)
| MetricCards (colors : option (string * string))
| PlotlyChart (c : Chart)
| Expander (label : string)
| Dataframe (df : DataFrame).

Section Script.

(** The engine behind the cursor: any state machine answering statements. *)
Variable Engine : Type.
Variable execute : Engine -> string -> Response * Engine.

Record World : Type := mkWorld {
  cursor : Engine;
  issued : list string;                 (* statements sent, oldest first *)
  screen : list (Container * Widget);   (* widgets drawn, oldest first *)
  called : list (string * list value)   (* calls into [utils.connection] *)
}.

Definition M (A : Type) : Type := World -> result A * World.

Definition ret {A : Type} (a : A) : M A := fun w => (Ok a, w).

Definition bind {A B : Type} (m : M A) (k : A -> M B) : M B :=
  fun w =>
    match m w with
    | (Ok a, w') => k a w'
    | (Raise e, w') => (Raise e, w')
    end.

Definition raise {A : Type} (e : exn) : M A := fun w => (Raise e, w).

Definition lift {A : Type} (r : result A) : M A := fun w => (r, w).

(** [try: body  except Exception as e: handler(e)] *)
Definition try_except {A : Type} (body : M A) (handler : exn -> M A) : M A :=
  fun w =>
    match body w with
    | (Ok a, w') => (Ok a, w')
    | (Raise e, w') => handler e w'
    end.

(** [if c: body] *)
Definition when (c : bool) (body : M unit) : M unit :=
  if c then body else ret tt.

(** [cursor.execute(sql).fetchall()]: one round trip; the statement is
    logged whether or not the engine accepts it. *)
Definition cursor_execute (sql : string) : M (list row) :=
  fun w =>
    let (r, c) := execute (cursor w) sql in
    let w' := mkWorld c (issued w ++ [sql]) (screen w) (called w) in
    match r with
    | Rows rows => (Ok rows, w')
    | Fails e => (Raise e, w')
    end.

(** Any [st.*] call that draws: the widget is added to what the page shows.
    The screen keeps what is displayed -- texts, metrics, charts, frames --
    and not the inputs (select boxes, buttons, the tab bar).  Streamlit is
    taken to accept what it is handed. *)
Definition draw (c : Container) (x : Widget) : M unit :=
  fun w => (Ok tt, mkWorld (cursor w) (issued w) (screen w ++ [(c, x)]) (called w)).

(** A call of a function imported from [utils.connection], noted in the
    world's call log with the data it was given (the cursor, which every one
    of them also receives, is the world's own).  The log is this model's
    record of the call; the callee cannot touch it. *)
Definition call {A : Type} (name : string) (args : list value) (f : M A) : M A :=
  fun w =>
    let (r, w') := f w in
    (r, mkWorld (cursor w') (issued w') (screen w') (called w ++ [(name, args)])).

End Script.

Arguments mkWorld {Engine} _ _ _ _.
Arguments cursor {Engine} _.
Arguments issued {Engine} _.
Arguments screen {Engine} _.
Arguments called {Engine} _.
Arguments ret {Engine A} _ _.
Arguments bind {Engine A B} _ _ _.
Arguments raise {Engine A} _ _.
Arguments lift {Engine A} _ _.
Arguments try_except {Engine A} _ _ _.
Arguments when {Engine} _ _ _.
Arguments cursor_execute {Engine} _ _ _.
Arguments draw {Engine} _ _ _.
Arguments call {Engine A} _ _ _ _.

Declare Scope script_scope.
Delimit Scope script_scope with script.
Notation "x <- m ;; k" := (bind m (fun x => k))
  (at level 61, m at next level, right associativity) : script_scope.
Notation "m ;; k" := (bind m (fun _ => k))
  (at level 61, right associativity) : script_scope.

(** ** [app.py] *)

Module App.

(** The six sidebar buttons, in the order [main] tests them. *)
Inductive Button : Type :=
| AnalyzeTable
| OptimizeVacuumTable
| OptimizeManifests
| ExpireSnapshots
| RemoveOrphanFiles
| DropExtendedStats.

(** The eleven metadata views read by tabs 1 to 11 (tab 0 shows the DDL). *)
Inductive View : Type :=
| Properties
| History
| Manifests
| AllManifests
| MetadataLogEntries
| Snapshots
| Partitions
| Files
| Entries
| AllEntries
| Refs.

Definition all_views : list View :=
  [Properties; History; Manifests; AllManifests; MetadataLogEntries;
   Snapshots; Partitions; Files; Entries; AllEntries; Refs].

(** The double quote and the line feed, which a literal cannot hold. *)
Definition dq : string := String (ascii_of_nat 34) EmptyString.
Definition nl : string := String (ascii_of_nat 10) EmptyString.

Fixpoint spaces (n : nat) : string :=
  match n with
  | O => EmptyString
  | S k => String (ascii_of_nat 32) (spaces k)
  end.

(** The view's name after the [$] of the metadata table. *)
Definition view_name (v : View) : string :=
  match v with
  | Properties => "properties"
  | History => "history"
  | Manifests => "manifests"
  | AllManifests => "all_manifests"
  | MetadataLogEntries => "metadata_log_entries"
  | Snapshots => "snapshots"
  | Partitions => "partitions"
  | Files => "files"
  | Entries => "entries"
  | AllEntries => "all_entries"
  | Refs => "refs"
  end.

(** [{schema}."{table}$view"], as every f-string of the tabs writes it: the
    schema as it is, the table between double quotes, nothing escaped. *)
Definition metadata_table (v : View) (schema table : value) : string :=
  str schema ++ "." ++ dq ++ str table ++ "$" ++ view_name v ++ dq.

Definition entries_projection : string :=
  "status, snapshot_id, sequence_number, file_sequence_number, data_file, readable_metrics".

(** The statement each tab sends (lines 186, 198, 215, 238, 258, 275, 294,
    309-312, 328, 346, 363). *)
Definition view_query (v : View) (schema table : value) : string :=
  match v with
  | Files =>
      nl ++ spaces 24
      ++ "SELECT content, file_path, record_count, file_format, file_size_in_bytes"
      ++ nl ++ spaces 24 ++ "FROM " ++ metadata_table v schema table
      ++ nl ++ spaces 20
  | Entries | AllEntries =>
      "SELECT " ++ entries_projection ++ " FROM " ++ metadata_table v schema table
  | _ => "SELECT * FROM " ++ metadata_table v schema table
  end.

(** The [columns=[...]] list of each tab. *)
Definition columns (v : View) : list string :=
  match v with
  | Properties => ["Key"; "Value"]
  | History =>
      ["Made Current At"; "Snapshot ID"; "Parent ID"; "Is Current Ancestor"]
  | Manifests =>
      ["Path"; "Length"; "Partition Spec ID"; "Added Snapshot ID";
       "Added Data Files Count"; "Existing Data Files Count";
       "Deleted Data Files Count"; "Added Position Deletes Count";
       "Existing Position Deletes Count"; "Deleted Position Deletes Count";
       "Partitions"]
  | AllManifests =>
      ["Path"; "Length"; "Partition Spec ID"; "Added Snapshot ID";
       "Added Data Files Count"; "Existing Data Files Count";
       "Deleted Data Files Count"; "Partition Summaries"]
  | MetadataLogEntries =>
      ["Timestamp"; "File"; "Latest Snapshot ID"; "Latest Schema ID";
       "Latest Sequence Number"]
  | Snapshots =>
      ["Committed At"; "Snapshot ID"; "Parent ID"; "Operation";
       "Manifest List"; "Summary"]
  | Partitions => ["Record Count"; "File Count"; "Total Size"; "Data"]
  | Files =>
      ["Content"; "File Path"; "Record Count"; "File Format";
       "File Size (Bytes)"]
  | Entries | AllEntries =>
      ["Status"; "Snapshot ID"; "Seq Num"; "File Seq Num"; "Data File";
       "Readable Metrics"]
  | Refs =>
      ["Name"; "Type"; "Snapshot ID"; "Max Reference Age (ms)";
       "Min Snapshots to Keep"; "Max Snapshot Age (ms)"]
  end.

(** The text before the colon in each tab's [st.error]. *)
Definition error_label (v : View) : string :=
  match v with
  | Properties => "Error loading properties"
  | History => "Error loading history"
  | Manifests => "Error loading manifests"
  | AllManifests => "Error loading all manifests"
  | MetadataLogEntries => "Error loading metadata log"
  | Snapshots => "Error loading snapshots"
  | Partitions => "Error loading partitions"
  | Files => "Error loading files"
  | Entries => "Error loading entries"
  | AllEntries => "Error loading all entries"
  | Refs => "Error loading references"
  end.

(** [tabs[i]] of each view. *)
Definition tab_index (v : View) : nat :=
  match v with
  | Properties => 1
  | History => 2
  | Manifests => 3
  | AllManifests => 4
  | MetadataLogEntries => 5
  | Snapshots => 6
  | Partitions => 7
  | Files => 8
  | Entries => 9
  | AllEntries => 10
  | Refs => 11
  end.

Definition schemas_query : string :=
  "select distinct table_schema from iceberg.information_schema.tables where table_type = 'BASE TABLE' and table_schema not in ('information_schema', 'system')".

Definition tables_query (schema : value) : string :=
  "select distinct table_name from iceberg.information_schema.tables where table_type = 'BASE TABLE' and table_schema not in ('information_schema', 'system') and lower(table_schema) = lower('"
  ++ str schema ++ "')".

Definition analyze_statement (schema table : value) : string :=
  "ANALYZE " ++ str schema ++ "." ++ str table.

Definition ddl_query (schema table : value) : string :=
  "show create table " ++ str schema ++ "." ++ str table.

(** [[r[0] for r in rows]] *)
Fixpoint first_column (rows : list row) : result (list value) :=
  match rows with
  | [] => Ok []
  | r :: rest =>
      match index r 0 with
      | Raise e => Raise e
      | Ok v =>
          match first_column rest with
          | Raise e => Raise e
          | Ok vs => Ok (v :: vs)
          end
      end
  end.

(** [st.selectbox(label, options)]: the option the user picked, [None] when
    there is nothing to pick from. *)
Definition selectbox (options : list value) (pick : nat) : value :=
  match options with
  | [] => VNone
  | first :: _ => nth pick options first
  end.

(** [d[key]] on the statistics dict.  The text of the KeyError is the
    [repr] of the key: the key between single quotes, for a key that holds
    neither quote nor backslash, as every key of [main] is. *)
Fixpoint dict_get {V : Type} (d : list (string * V)) (key : string) : result V :=
  match d with
  | [] => Raise (Exn KeyError ("'" ++ key ++ "'"))
  | (k, v) :: rest => if String.eqb k key then Ok v else dict_get rest key
  end.

(** [d.get(key)] *)
Fixpoint dict_get_or_none (d : list (string * value)) (key : string) : value :=
  match d with
  | [] => VNone
  | (k, v) :: rest => if String.eqb k key then v else dict_get_or_none rest key
  end.

Section Main.

Variable Engine : Type.
Variable execute : Engine -> string -> Response * Engine.

Local Abbreviation M := (M Engine).
Local Open Scope script_scope.

(** *** What [main] imports from [utils.connection] and reads from the user

    [utils/connection.py] is not among the sources, so its five functions are
    parameters of the script; so are the values of the statistics dict and
    their formatting by f-strings (which raises on a value that does not
    take the format), what plotly express makes of a chart's arguments, the
    buttons pressed in this run, the entries picked in the two select boxes
    and the theme. *)
Variable Num : Type.
Variable format_thousands : Num -> result string.   (* f"{x:,}" *)
Variable format_2f : Num -> result string.          (* f"{x:.2f}" *)
Variable MaintenanceOutcome : Type.
Variable init_connection : M unit.
Variable fetch_stats : value -> value -> M (list (string * Num)).
Variable load_snapshot_history : value -> value -> M DataFrame.
Variable load_file_details : value -> value -> M DataFrame.
Variable execute_alter_table : value -> value -> string -> M MaintenanceOutcome.
Variable pressed : Button -> bool.
Variable picked_schema picked_table : nat.
Variable theme : option (list (string * value)).
  (* [theme = st_theme()], line 22: a dict, or None *)
Variable px_raises : Chart -> option exn.
  (* the exception [px.scatter] or [px.histogram] raises on these arguments,
     if it raises *)

(** Lines 30-46: the two select boxes. *)
Definition select_table : M (value * value) :=
  draw Sidebar (Header "🔍 Select Table");;
  rows <- cursor_execute execute schemas_query;;
  schemas <- lift (first_column rows);;
  let schema := selectbox schemas picked_schema in
  rows <- cursor_execute execute (tables_query schema);;
  tables <- lift (first_column rows);;
  let table := selectbox tables picked_table in
  ret (schema, table).

(** Lines 50-53: the ANALYZE button. *)
Definition analyze_action (schema table : value) : M unit :=
  when (pressed AnalyzeTable)
    (draw Sidebar (Spinner "Analyzing table...");;
     _ <- cursor_execute execute (analyze_statement schema table);;
     draw Sidebar (Success "Table analyzed successfully.")).

(** One maintenance button: spinner, then the call, whose value is dropped. *)
Definition maintenance_button (b : Button) (spinner procedure : string)
    (schema table : value) : M unit :=
  when (pressed b)
    (draw Sidebar (Spinner spinner);;
     _ <- call "execute_alter_table" [schema; table; VStr procedure]
            (execute_alter_table schema table procedure);;
     ret tt).

(** Lines 55-85: the five maintenance buttons. *)
Definition maintenance_actions (schema table : value) : M unit :=
  maintenance_button OptimizeVacuumTable "Optimizing table..."
    "optimize(file_size_threshold => '128MB')" schema table;;
  maintenance_button OptimizeManifests "Optimizing manifests..."
    "optimize_manifests" schema table;;
  maintenance_button ExpireSnapshots "Expiring snapshots..."
    "expire_snapshots(retention_threshold => '7d')" schema table;;
  maintenance_button RemoveOrphanFiles "Removing orphan files..."
    "remove_orphan_files(retention_threshold => '7d')" schema table;;
  maintenance_button DropExtendedStats "Dropping extended stats..."
    "drop_extended_stats" schema table.

(** Lines 48-85. *)
Definition table_actions (schema table : value) : M unit :=
  draw Sidebar Divider;;
  draw Sidebar (Header "⚙️ Table Actions");;
  analyze_action schema table;;
  maintenance_actions schema table.

(** [col.metric(label, f"{stats[key]:fmt}")] *)
Definition metric (stats : list (string * Num)) (label key : string)
    (fmt : Num -> result string) : M unit :=
  x <- lift (dict_get stats key);;
  text <- lift (fmt x);;
  draw Page (Metric label text).

(** [px.scatter(...)], [px.histogram(...)]: the figure, or the exception. *)
Definition px (c : Chart) : M Chart :=
  match px_raises c with
  | Some e => raise e
  | None => ret c
  end.

(** Lines 88-123. *)
Definition table_overview (schema table : value) : M unit :=
  draw Page (Header ("📋 " ++ str schema ++ "." ++ str table));;
  stats <- call "fetch_stats" [schema; table] (fetch_stats schema table);;
  draw Page (Subheader "📌 Table Overview");;
  metric stats "Files" "Files" format_thousands;;
  metric stats "Partitions" "Partitions" format_thousands;;
  metric stats "Rows" "Rows" format_thousands;;
  metric stats "Snapshots" "Snapshots" format_thousands;;
  metric stats "History" "History" format_thousands;;
  metric stats "Small Files (<100MB)" "Small Files (<100MB)" format_thousands;;
  draw Page (Subheader "📏 File Size Metrics");;
  metric stats "Avg File Size (MB)" "Average File Size (MB)" format_2f;;
  metric stats "Largest File Size (MB)" "Largest File Size (MB)" format_2f;;
  metric stats "Smallest File Size (MB)" "Smallest File Size (MB)" format_2f;;
  metric stats "Avg Records per File" "Average Records per File" format_thousands;;
  metric stats "Std Dev File Size (MB)" "Std Dev File Size (MB)" format_2f;;
  metric stats "Variance File Size (Bytes²)" "Variance File Size (Bytes²)"
    format_thousands;;
  match theme with
  | None =>
      raise (Exn AttributeError "'NoneType' object has no attribute 'get'")
  | Some d =>
      match dict_get_or_none d "base" with
      | VStr "dark" => draw Page (MetricCards (Some ("#1B1C24", "#292D34")))
      | _ => draw Page (MetricCards None)
      end
  end.

(** Lines 125-140. *)
Definition snapshot_timeline (schema table : value) : M unit :=
  snapshot_history <- call "load_snapshot_history" [schema; table]
                        (load_snapshot_history schema table);;
  draw Page (Subheader "⏳ Snapshot Timeline");;
  if negb (empty snapshot_history)
  then
    fig_snapshots <- px (Scatter snapshot_history "Committed At" "Operation"
                           "Operation" ["Snapshot ID"; "Parent ID"; "Summary"]
                           "Snapshot Timeline");;
    draw Page (PlotlyChart fig_snapshots);;
    draw Page (Expander "Snapshot Details");;
    draw Page (Dataframe snapshot_history)
  else draw Page (Info "No snapshot history available.").

(** Lines 142-152. *)
Definition file_size_distribution (schema table : value) : M unit :=
  file_details <- call "load_file_details" [schema; table]
                    (load_file_details schema table);;
  draw Page (Subheader "📂 File Size Distribution");;
  if negb (empty file_details)
  then
    fig_size <- px (Histogram file_details "Size"
                      "File Size Distribution (bytes)" 50);;
    draw Page (PlotlyChart fig_size);;
    draw Page (Expander "Detailed File Information");;
    draw Page (Dataframe file_details)
  else draw Page (Info "No file details available.").

(** Lines 173-180: the DDL tab.  Its handler's text says "references". *)
Definition ddl_tab (schema table : value) : M unit :=
  try_except
    (rows <- cursor_execute execute (ddl_query schema table);;
     first <- lift (index rows 0);;
     ddl <- lift (index first 0);;
     draw (Tab 0) (Code ddl "sql"))
    (fun e => draw (Tab 0) (Error ("Error loading references: " ++ str_exn e))).

(** Lines 182-375: each of the eleven view tabs, one [try]/[except] apiece. *)
Definition view_tab (v : View) (schema table : value) : M unit :=
  try_except
    (rows <- cursor_execute execute (view_query v schema table);;
     df <- lift (Pandas.mk rows (columns v));;
     draw (Tab (tab_index v)) (Dataframe df))
    (fun e =>
       draw (Tab (tab_index v)) (Error (error_label v ++ ": " ++ str_exn e))).

(** Lines 155-375. *)
Definition metadata_tabs (schema table : value) : M unit :=
  ddl_tab schema table;;
  view_tab Properties schema table;;
  view_tab History schema table;;
  view_tab Manifests schema table;;
  view_tab AllManifests schema table;;
  view_tab MetadataLogEntries schema table;;
  view_tab Snapshots schema table;;
  view_tab Partitions schema table;;
  view_tab Files schema table;;
  view_tab Entries schema table;;
  view_tab AllEntries schema table;;
  view_tab Refs schema table.

(** Lines 87-375: everything under [if table:]. *)
Definition table_page (schema table : value) : M unit :=
  table_overview schema table;;
  snapshot_timeline schema table;;
  file_size_distribution schema table;;
  draw Page (Subheader "📋 Table Metadata");;
  metadata_tabs schema table.

(** Lines 25-375. *)
Definition main : M unit :=
  draw Page (Title "📊 Iceberg Metadata Insights");;
  call "init_connection" [] init_connection;;
  selected <- select_table;;
  let (schema, table) := selected in
  table_actions schema table;;
  when (truthy table) (table_page schema table).

End Main.

(** *** Reading a run of the tabs

    The twelve tabs in the order [main] runs them, the statement each one
    sends, and the widget each one ends with as a function of the engine's
    answer to that statement alone. *)

Inductive TabId : Type :=
| ShowDDL
| ViewTab (v : View).

Definition all_tabs : list TabId := ShowDDL :: map ViewTab all_views.

Definition tab_query (t : TabId) (schema table : value) : string :=
  match t with
  | ShowDDL => ddl_query schema table
  | ViewTab v => view_query v schema table
  end.

Definition tab_container (t : TabId) : Container :=
  match t with
  | ShowDDL => Tab 0
  | ViewTab v => Tab (tab_index v)
  end.

Definition tab_error_label (t : TabId) : string :=
  match t with
  | ShowDDL => "Error loading references"
  | ViewTab v => error_label v
  end.

Definition tab_error (t : TabId) (e : exn) : Widget :=
  Error (tab_error_label t ++ ": " ++ str_exn e).

Definition tab_outcome (t : TabId) (r : Response) : Widget :=
  match r with
  | Fails e => tab_error t e
  | Rows rows =>
      match t with
      | ShowDDL =>
          match index rows 0 with
          | Raise e => tab_error t e
          | Ok first =>
              match index first 0 with
              | Raise e => tab_error t e
              | Ok ddl => Code ddl "sql"
              end
          end
      | ViewTab v =>
          match Pandas.mk rows (columns v) with
          | Raise e => tab_error t e
          | Ok df => Dataframe df
          end
      end
  end.

Section Answers.

Variable Engine : Type.
Variable execute : Engine -> string -> Response * Engine.

(** The engine's answers to a list of statements sent one after the other. *)
Fixpoint answers (c : Engine) (qs : list string) : list Response :=
  match qs with
  | [] => []
  | q :: rest => fst (execute c q) :: answers (snd (execute c q)) rest
  end.

Fixpoint engine_after (c : Engine) (qs : list string) : Engine :=
  match qs with
  | [] => c
  | q :: rest => engine_after (snd (execute c q)) rest
  end.

Definition run_tab (t : TabId) (schema table : value) : M Engine unit :=
  match t with
  | ShowDDL => ddl_tab Engine execute schema table
  | ViewTab v => view_tab Engine execute v schema table
  end.

(** A list of tabs, one after the other. *)
Fixpoint run_tabs (ts : list TabId) (schema table : value) : M Engine unit :=
  match ts with
  | [] => ret tt
  | t :: rest =>
      bind (run_tab t schema table) (fun _ => run_tabs rest schema table)
  end.

(** What a run of the tabs [ts] draws, given the engine it starts from. *)
Definition tabs_drawn (ts : list TabId) (schema table : value) (c : Engine)
  : list (Container * Widget) :=
  map (fun tr => (tab_container (fst tr), tab_outcome (fst tr) (snd tr)))
      (combine ts (answers c (map (fun t => tab_query t schema table) ts))).

End Answers.

(** *** Reading the call log *)

(** [m] adds to the call log a prefix of [cs], and all of [cs] when it
    returns. *)
Definition logs {Engine : Type} (m : M Engine unit)
    (cs : list (string * list value)) : Prop :=
  forall w, exists done rest,
    called (snd (m w)) = called w ++ done
    /\ cs = done ++ rest
    /\ (fst (m w) = Ok tt -> rest = []).

(** *** A scripted cursor

    A test double for the engine: it answers a statement from a table of
    canned responses, fails with [default] on any other text, and counts the
    statements it has seen. *)
Fixpoint canned (script : list (string * Response)) (default : Response)
    (sql : string) : Response :=
  match script with
  | [] => default
  | (q, r) :: rest => if String.eqb q sql then r else canned rest default sql
  end.

Definition scripted (script : list (string * Response)) (default : Response)
    (seen : nat) (sql : string) : Response * nat :=
  (canned script default sql, S seen).

(** Two views fail, each in its own way, and the third is still shown. *)
Definition two_failures : list (string * Response) :=
  [ (view_query Properties (VStr "db") (VStr "t"),
     Fails (Exn EngineError "TABLE_NOT_FOUND"));
    (view_query History (VStr "db") (VStr "t"),
     Fails (Exn EngineError "PERMISSION_DENIED"));
    (view_query Partitions (VStr "db") (VStr "t"),
     Rows [[VInt 10; VInt 2; VInt 4096; VStr "{}"]]) ].

(** *** A run to try things on

    One schema [db] with one table [t]; every other statement, ANALYZE among
    them, is refused.  The imports from [utils.connection] do nothing. *)
Definition one_table : list (string * Response) :=
  [ (schemas_query, Rows [[VStr "db"]]);
    (tables_query (VStr "db"), Rows [[VStr "t"]]) ].

Definition refused : Response :=
  Fails (Exn EngineError "Access Denied: Cannot analyze table db.t").

Definition only (b : Button) (b' : Button) : bool :=
  match b, b' with
  | AnalyzeTable, AnalyzeTable
  | OptimizeVacuumTable, OptimizeVacuumTable
  | OptimizeManifests, OptimizeManifests
  | ExpireSnapshots, ExpireSnapshots
  | RemoveOrphanFiles, RemoveOrphanFiles
  | DropExtendedStats, DropExtendedStats => true
  | _, _ => false
  end.

Definition idle_main (pressed : Button -> bool) : M nat unit :=
  main nat (scripted one_table refused) unit (fun _ => Ok "") (fun _ => Ok "")
    unit (ret tt) (fun _ _ => ret []) (fun _ _ => ret (mkDataFrame [] []))
    (fun _ _ => ret (mkDataFrame [] [])) (fun _ _ _ => ret tt)
    pressed 0 0 (Some []) (fun _ => None).

End App.

(** ** [utils/connection.py]

    The module is imported by [app.py] but is not among the sources; what
    follows is written from the specification's sections 3, 4 and 7. *)

Module Connection.

(** *** MaintenanceOrchestrator *)

Inductive Outcome : Type :=
| success
| failed.

Record MaintenanceResult : Type := mkMaintenanceResult {
  procedure_name : string;
  table_identifier : string;
  outcome : Outcome;
  error_message : option string
}.

(** The invocation surface of section 6, one text per procedure, with the
    thresholds as parameters. *)
Definition optimize_call (file_size_threshold : string) : string :=
  "optimize(file_size_threshold => '" ++ file_size_threshold ++ "')".
Definition optimize_manifests_call : string := "optimize_manifests".
Definition expire_snapshots_call (retention_threshold : string) : string :=
  "expire_snapshots(retention_threshold => '" ++ retention_threshold ++ "')".
Definition remove_orphan_files_call (retention_threshold : string) : string :=
  "remove_orphan_files(retention_threshold => '" ++ retention_threshold ++ "')".
Definition drop_extended_stats_call : string := "drop_extended_stats".

(** The defaults section 4.4 names. *)
Definition DEFAULT_FILE_SIZE_THRESHOLD : string := "128MB".
Definition DEFAULT_RETENTION_THRESHOLD : string := "7d".

Definition identifier (schema table : value) : string :=
  str schema ++ "." ++ str table.

(** The ALTER-style call issued against [schema.table]. *)
Definition alter_statement (schema table : value) (procedure : string) : string :=
  "ALTER TABLE " ++ identifier schema table ++ " EXECUTE " ++ procedure.

Section Orchestrator.

Variable Engine : Type.
Variable execute : Engine -> string -> Response * Engine.

(** Modelled from the spec: [execute_alter_table] of [utils/connection.py],
    which is missing from the sources.  Section 4.4: one attempt, no retry;
    on an engine error the result is [failed] and carries the engine's
    message verbatim.  Section 7: a maintenance error is never raised
    further, while an unreachable engine ([ConnectionError]) is fatal and
    propagates. *)
Definition execute_alter_table (schema table : value) (procedure : string)
  : M Engine MaintenanceResult :=
  try_except
    (bind (cursor_execute execute (alter_statement schema table procedure))
       (fun _ => ret (mkMaintenanceResult procedure (identifier schema table)
                        success None)))
    (fun e =>
       match exn_kind e with
       | ConnectionError => raise e
       | _ => ret (mkMaintenanceResult procedure (identifier schema table)
                     failed (Some (str_exn e)))
       end).


End Orchestrator.

(** *** StatsAggregator *)

Record FileRecord : Type := mkFileRecord {
  path : string;
  size_in_bytes : N;
  record_count : N;
  format : string;
  content_type : N
}.

Record TableStats : Type := mkTableStats {
  file_count : N;
  partition_count : N;
  row_count : N;
  snapshot_count : N;
  history_entry_count : N;
  small_file_count : N;
  avg_file_size_mb : Q;
  max_file_size_mb : Q;
  min_file_size_mb : Q;
  avg_records_per_file : N;
  stddev_file_size : R;
  (* section 3 calls this field stddev_file_size_mb; sections 4.2 and 8
     give its value as the square root of the variance, in bytes *)
  variance_file_size_bytes2 : Q
}.

Definition BYTES_PER_MB : N := 1048576.
Definition SMALL_FILE_THRESHOLD_BYTES : N := 100 * 1048576.

Definition N_to_Q (n : N) : Q := inject_Z (Z.of_N n).
Definition nat_to_Q (n : nat) : Q := inject_Z (Z.of_nat n).

(** The arithmetic that can fail: a quotient with a zero divisor, the
    extreme of no numbers, the root of a negative number. *)
Definition checked_div (a b : Q) : option Q :=
  if Qeq_bool b 0 then None else Some (a / b)%Q.

Definition checked_div_N (a b : N) : option N :=
  if N.eqb b 0 then None else Some (N.div a b).

Definition checked_sqrt (v : Q) : option R :=
  if Qle_bool 0 v then Some (sqrt (Q2R v)) else None.

Definition Qmax (a b : Q) : Q := if Qle_bool a b then b else a.
Definition Qmin (a b : Q) : Q := if Qle_bool a b then a else b.

Definition extreme (pick : Q -> Q -> Q) (xs : list Q) : option Q :=
  match xs with
  | [] => None
  | x :: rest => Some (fold_left pick rest x)
  end.

Definition total (xs : list Q) : Q := fold_right Qplus 0%Q xs.

Definition mean (xs : list Q) : option Q :=
  checked_div (total xs) (nat_to_Q (length xs)).

Definition squared_deviations (m : Q) (xs : list Q) : list Q :=
  map (fun x => ((x - m) * (x - m))%Q) xs.

(** Population variance: the mean of the squared deviations from the mean. *)
Definition population_variance (xs : list Q) : option Q :=
  match mean xs with
  | None => None
  | Some m => mean (squared_deviations m xs)
  end.

Definition and_then {A B : Type} (m : option A) (k : A -> option B) : option B :=
  match m with
  | None => None
  | Some a => k a
  end.

Definition sizes_bytes (files : list FileRecord) : list Q :=
  map (fun f => N_to_Q (size_in_bytes f)) files.

Definition sizes_mb (files : list FileRecord) : list Q :=
  map (fun f => (N_to_Q (size_in_bytes f) / N_to_Q BYTES_PER_MB)%Q) files.

Definition sum_record_count (files : list FileRecord) : N :=
  fold_right (fun f acc => N.add (record_count f) acc) 0%N files.

(** Modelled from the spec: the small-file count of [fetch_stats]
    (section 4.2), the files strictly below the threshold. *)
Fixpoint count_small_files (files : list FileRecord) : N :=
  match files with
  | [] => 0%N
  | f :: rest =>
      if N.ltb (size_in_bytes f) SMALL_FILE_THRESHOLD_BYTES
      then N.succ (count_small_files rest)
      else count_small_files rest
  end.

(** Modelled from the spec: the size-derived fields of [fetch_stats]
    (section 4.2), each with the default the spec gives it. *)
Definition average_file_size_mb (files : list FileRecord) : option Q :=
  if Nat.eqb (length files) 0 then Some 0%Q else mean (sizes_mb files).

Definition largest_file_size_mb (files : list FileRecord) : option Q :=
  if Nat.eqb (length files) 0 then Some 0%Q else extreme Qmax (sizes_mb files).

Definition smallest_file_size_mb (files : list FileRecord) : option Q :=
  if Nat.eqb (length files) 0 then Some 0%Q else extreme Qmin (sizes_mb files).

(** The quotient of two counts, truncated. *)
Definition average_records_per_file (files : list FileRecord) : option N :=
  if Nat.eqb (length files) 0 then Some 0%N
  else checked_div_N (sum_record_count files) (N.of_nat (length files)).

Definition variance_file_size (files : list FileRecord) : option Q :=
  if Nat.leb (length files) 1 then Some 0%Q else population_variance (sizes_bytes files).

Definition stddev_of_file_size (files : list FileRecord) : option R :=
  if Nat.leb (length files) 1 then Some 0%R
  else and_then (population_variance (sizes_bytes files)) checked_sqrt.

(** Modelled from the spec: the aggregation of [fetch_stats] in
    [utils/connection.py], which is missing from the sources (section 4.2).
    The result is [None] exactly where the arithmetic would be undefined. *)
Definition StatsAggregator (files : list FileRecord)
    (partitions snapshots history_entries : N) : option TableStats :=
  and_then (average_file_size_mb files) (fun avg =>
  and_then (largest_file_size_mb files) (fun largest =>
  and_then (smallest_file_size_mb files) (fun smallest =>
  and_then (average_records_per_file files) (fun per_file =>
  and_then (stddev_of_file_size files) (fun stddev =>
  and_then (variance_file_size files) (fun variance =>
  Some (mkTableStats (N.of_nat (length files)) partitions (sum_record_count files)
          snapshots history_entries (count_small_files files)
          avg largest smallest per_file stddev variance))))))).

(** Tables to try the aggregation on: two data files of 100 MB and 300 MB,
    and the three files of 50, 150 and 250 MB with 1000 rows between them. *)
Definition data_file (name : string) (size records : N) : FileRecord :=
  mkFileRecord name size records "PARQUET" 0.

Definition two_files : list FileRecord :=
  [data_file "a.parquet" 104857600 10; data_file "b.parquet" 314572800 20].

Definition three_files : list FileRecord :=
  [data_file "a.parquet" (50 * BYTES_PER_MB) 333;
   data_file "b.parquet" (150 * BYTES_PER_MB) 333;
   data_file "c.parquet" (250 * BYTES_PER_MB) 334].

(** *** TimelineProjector *)

Inductive Operation : Type :=
| append
| overwrite
| replace
| delete.

Record SnapshotEvent : Type := mkSnapshotEvent {
  snapshot_id : Z;
  parent_id : option Z;
  operation : Operation;
  committed_at : Z;
  summary : list (string * string)
}.

(** Insertion before the first event that is not earlier: an event passes
    only strictly earlier ones. *)
Fixpoint insert_event (e : SnapshotEvent) (l : list SnapshotEvent)
  : list SnapshotEvent :=
  match l with
  | [] => [e]
  | x :: rest =>
      if Z.leb (committed_at e) (committed_at x)
      then e :: x :: rest
      else x :: insert_event e rest
  end.

Definition sort_by_committed_at (events : list SnapshotEvent)
  : list SnapshotEvent :=
  fold_right insert_event [] events.

(** The order of the timeline, and the events of one instant. *)
Definition not_later (a b : SnapshotEvent) : Prop :=
  (committed_at a <= committed_at b)%Z.

Definition committed_then (t : Z) (e : SnapshotEvent) : bool :=
  Z.eqb (committed_at e) t.

(** Modelled from the spec: the projection of [load_snapshot_history] in
    [utils/connection.py], which is missing from the sources (section 4.3):
    the events in ascending [committed_at] order, ties in their original
    order, each with its colour key. *)
Definition TimelineProjector (events : list SnapshotEvent)
  : list (SnapshotEvent * Operation) :=
  map (fun e => (e, operation e)) (sort_by_committed_at events).

End Connection.

(** ** What the specification lists

    Section 6's table of column schemas, word for word, and the maintenance
    calls of section 6 at the defaults of section 4.4; the code's own lists
    are [App.columns] and the literals of [App.maintenance_actions]. *)

Module Section6.
Import App.

Definition columns (v : View) : list string :=
  match v with
  | Properties => ["Key"; "Value"]
  | History =>
      ["Made Current At"; "Snapshot ID"; "Parent ID"; "Is Current Ancestor"]
  | Manifests =>
      ["Path"; "Length"; "Partition Spec ID";
       "Added Data Files Count"; "Existing Data Files Count";
       "Deleted Data Files Count"; "Added Position Deletes Count";
       "Existing Position Deletes Count"; "Deleted Position Deletes Count";
       "Partitions"]
  | AllManifests =>
      ["Path"; "Length"; "Partition Spec ID"; "Added Snapshot ID";
       "Added Data Files Count"; "Existing Data Files Count";
       "Deleted Data Files Count"; "Partition Summaries"]
  | MetadataLogEntries =>
      ["Timestamp"; "File"; "Latest Snapshot ID"; "Latest Schema ID";
       "Latest Sequence Number"]
  | Snapshots =>
      ["Committed At"; "Snapshot ID"; "Parent ID"; "Operation";
       "Manifest List"; "Summary"]
  | Partitions => ["Record Count"; "File Count"; "Total Size"; "Data"]
  | Files =>
      ["Content"; "File Path"; "Record Count"; "File Format";
       "File Size (Bytes)"]
  | Entries | AllEntries =>
      ["Status"; "Snapshot ID"; "Seq Num"; "File Seq Num"; "Data File";
       "Readable Metrics"]
  | Refs =>
      ["Name"; "Type"; "Snapshot ID"; "Max Reference Age (ms)";
       "Min Snapshots to Keep"; "Max Snapshot Age (ms)"]
  end.

(** The rows of every view carry the schema of the table. *)
Definition schema_as_listed (v : View) : Prop := App.columns v = columns v.

(** One request to [execute_alter_table], as the call log keeps it. *)
Definition request (schema table : value) (procedure : string)
  : string * list value :=
  ("execute_alter_table", [schema; table; VStr procedure]).

(** The requests of a run in which the buttons [pressed] are down and the
    thresholds are those given. *)
Definition requests (file_size_threshold expire_retention orphan_retention : string)
    (pressed : Button -> bool) (schema table : value)
  : list (string * list value) :=
  (if pressed OptimizeVacuumTable
   then [request schema table (Connection.optimize_call file_size_threshold)]
   else [])
  ++ (if pressed OptimizeManifests
      then [request schema table Connection.optimize_manifests_call] else [])
  ++ (if pressed ExpireSnapshots
      then [request schema table (Connection.expire_snapshots_call expire_retention)]
      else [])
  ++ (if pressed RemoveOrphanFiles
      then [request schema table (Connection.remove_orphan_files_call orphan_retention)]
      else [])
  ++ (if pressed DropExtendedStats
      then [request schema table Connection.drop_extended_stats_call] else []).

(** The thresholds are parameters of the invocation: whatever file-size
    threshold is wanted, some run of the maintenance buttons asks for an
    optimize with it. *)
Definition file_size_threshold_is_a_parameter : Prop :=
  forall size : string,
  exists (Engine Outcome : Type)
         (execute_alter_table : value -> value -> string -> M Engine Outcome)
         (pressed : Button -> bool) (schema table : value) (w : World Engine),
    called w = []
    /\ In (request schema table (Connection.optimize_call size))
          (called (snd (maintenance_actions Engine Outcome execute_alter_table
                          pressed schema table w))).

End Section6.

(** ** How the engine reads a statement's relation

    Enough of SQL's lexical rules to say which relation a [SELECT ... FROM]
    names: words of letters, digits and underscores; delimited identifiers
    between double quotes, in which a doubled quote stands for one quote;
    any other character a symbol of its own.  A word the engine reserves
    cannot stand as an identifier unless it is delimited; which words those
    are is the engine's choice, and a parameter here.  A name is read as it
    is written: the case in which the engine then looks it up is left to the
    engine. *)

Module Sql.

Inductive token : Type :=
| Word (s : string)
| Quoted (s : string)
| Symbol (c : ascii).

Inductive mode : Type :=
| Between
| InWord (acc : string)
| InQuoted (acc : string)
| QuoteSeen (acc : string).   (* a quote read inside a delimited identifier *)

Definition is_space (c : ascii) : bool :=
  let n := nat_of_ascii c in
  Nat.eqb n 32 || Nat.eqb n 10 || Nat.eqb n 9 || Nat.eqb n 13.

Definition is_word_char (c : ascii) : bool :=
  let n := nat_of_ascii c in
  (Nat.leb 97 n && Nat.leb n 122)        (* a-z *)
  || (Nat.leb 65 n && Nat.leb n 90)      (* A-Z *)
  || (Nat.leb 48 n && Nat.leb n 57)      (* 0-9 *)
  || Nat.eqb n 95.                       (* _ *)

Definition is_dquote (c : ascii) : bool := Nat.eqb (nat_of_ascii c) 34.

Definition snoc (acc : string) (c : ascii) : string :=
  acc ++ String c EmptyString.

(** One character read outside any token. *)
Definition step_between (c : ascii) : list token * mode :=
  if is_space c then ([], Between)
  else if is_word_char c then ([], InWord (String c EmptyString))
  else if is_dquote c then ([], InQuoted EmptyString)
  else ([Symbol c], Between).

(** One character read: the tokens it completes and the mode it leaves. *)
Definition step (m : mode) (c : ascii) : list token * mode :=
  match m with
  | Between => step_between c
  | InWord acc =>
      if is_word_char c then ([], InWord (snoc acc c))
      else (Word acc :: fst (step_between c), snd (step_between c))
  | InQuoted acc =>
      if is_dquote c then ([], QuoteSeen acc)
      else ([], InQuoted (snoc acc c))
  | QuoteSeen acc =>
      if is_dquote c then ([], InQuoted (snoc acc c))
      else (Quoted acc :: fst (step_between c), snd (step_between c))
  end.

Fixpoint scan (m : mode) (s : string) : list token * mode :=
  match s with
  | EmptyString => ([], m)
  | String c rest =>
      let (now, m1) := step m c in
      let (later, m2) := scan m1 rest in
      (now ++ later, m2)
  end.

(** The end of the text closes a word or a delimited identifier whose
    closing quote was read; an identifier still open is an error. *)
Definition finish (r : list token * mode) : option (list token) :=
  match snd r with
  | Between => Some (fst r)
  | InWord acc => Some (fst r ++ [Word acc])
  | InQuoted _ => None
  | QuoteSeen acc => Some (fst r ++ [Quoted acc])
  end.

Definition lex (s : string) : option (list token) := finish (scan Between s).

Section Reading.

Variable reserved : string -> bool.

(** A dotted name and nothing after it; an undelimited part must not be a
    reserved word. *)
Fixpoint qualified_name (ts : list token) : option (list string) :=
  match ts with
  | [Word s] => if reserved s then None else Some [s]
  | [Quoted s] => Some [s]
  | Word s :: Symbol c :: rest =>
      if reserved s then None
      else if Nat.eqb (nat_of_ascii c) 46
      then option_map (cons s) (qualified_name rest) else None
  | Quoted s :: Symbol c :: rest =>
      if Nat.eqb (nat_of_ascii c) 46
      then option_map (cons s) (qualified_name rest) else None
  | _ => None
  end.

(** The tokens after the first [FROM]. *)
Fixpoint after_from (ts : list token) : option (list token) :=
  match ts with
  | [] => None
  | Word s :: rest => if String.eqb s "FROM" then Some rest else after_from rest
  | _ :: rest => after_from rest
  end.

(** The relation a statement of the shape [SELECT ... FROM name] reads, as a
    path of identifiers; [None] when the text is not of that shape. *)
Definition relation_read (sql : string) : option (list string) :=
  match lex sql with
  | Some (Word s :: ts) =>
      if String.eqb s "SELECT"
      then match after_from ts with
           | Some name => qualified_name name
           | None => None
           end
      else None
  | _ => None
  end.

End Reading.

(** The three openings of the statements, up to and including [FROM]. *)
Definition star_opening : list token :=
  [Word "SELECT"; Symbol "*"; Word "FROM"].

Definition entries_opening : list token :=
  [Word "SELECT"; Word "status"; Symbol ","; Word "snapshot_id"; Symbol ",";
   Word "sequence_number"; Symbol ","; Word "file_sequence_number";
   Symbol ","; Word "data_file"; Symbol ","; Word "readable_metrics";
   Word "FROM"].

Definition files_opening : list token :=
  [Word "SELECT"; Word "content"; Symbol ","; Word "file_path"; Symbol ",";
   Word "record_count"; Symbol ","; Word "file_format"; Symbol ",";
   Word "file_size_in_bytes"; Word "FROM"].

(** What may stand unquoted as an identifier: a letter or an underscore,
    then letters, digits and underscores. *)
Fixpoint all_chars (p : ascii -> bool) (s : string) : bool :=
  match s with
  | EmptyString => true
  | String c rest => p c && all_chars p rest
  end.

Definition is_digit (c : ascii) : bool :=
  let n := nat_of_ascii c in Nat.leb 48 n && Nat.leb n 57.

Definition plain_word (s : string) : bool :=
  match s with
  | EmptyString => false
  | String c _ => negb (is_digit c) && all_chars is_word_char s
  end.

Definition quote_free (s : string) : bool :=
  all_chars (fun c => negb (is_dquote c)) s.

(** What a metadata-view read is meant to name: the view of [table] in
    [schema]. *)
Definition intended_relation (v : App.View) (schema table : value) : list string :=
  [str schema; (str table ++ "$" ++ App.view_name v)%string].

(** The identifiers reach the engine as the identifiers they are. *)
Definition identifiers_preserved (reserved : string -> bool) (v : App.View)
    (schema table : value) : Prop :=
  relation_read reserved (App.view_query v schema table)
  = Some (intended_relation v schema table).

(** A letter in lower case. *)
Definition lower_case (c : ascii) : ascii :=
  let n := nat_of_ascii c in
  if Nat.leb 65 n && Nat.leb n 90 then ascii_of_nat (n + 32) else c.

Fixpoint lower (s : string) : string :=
  match s with
  | EmptyString => EmptyString
  | String c rest => String (lower_case c) (lower rest)
  end.

(** Some of the words an engine reserves, in whatever case they are
    written. *)
Definition keywords : string -> bool :=
  fun s =>
    existsb (String.eqb (lower s))
      ["select"; "from"; "where"; "group"; "order"; "by"; "having"; "join";
       "on"; "as"; "and"; "or"; "not"; "in"; "is"; "null"; "true"; "false";
       "table"; "create"; "drop"; "alter"; "insert"; "into"; "delete";
       "values"; "union"; "with"; "case"; "when"; "then"; "else"; "end"].

End Sql.

(** ** Reading a run of [main]

    What the rest of [main] is measured against: the call log a run leaves,
    the metrics of the overview and the keys they need, and runs to try
    things on. *)

Module AppReadings.
Import App.

(** [m] leaves the call log as it was. *)
Definition quiet {Engine A : Type} (m : M Engine A) : Prop :=
  forall w, called (snd (m w)) = called w.

(** [m] adds to the call log a prefix of [cs], and all of [cs] when it
    returns a value. *)
Definition logs_of {Engine A : Type} (m : M Engine A)
    (cs : list (string * list value)) : Prop :=
  forall w, exists done rest,
    called (snd (m w)) = called w ++ done
    /\ cs = done ++ rest
    /\ (forall a, fst (m w) = Ok a -> rest = []).

(** The three loaders of the page, as the call log keeps them. *)
Definition loader_calls (schema table : value) : list (string * list value) :=
  [("fetch_stats", [schema; table]);
   ("load_snapshot_history", [schema; table]);
   ("load_file_details", [schema; table])].

(** The two rows of metrics (lines 92-115): label, key of the statistics
    dict, and whether the value is printed with two decimals ([:.2f]) or
    with thousands separators ([:,]). *)
Definition row1 : list (string * string * bool) :=
  [("Files", "Files", false);
   ("Partitions", "Partitions", false);
   ("Rows", "Rows", false);
   ("Snapshots", "Snapshots", false);
   ("History", "History", false);
   ("Small Files (<100MB)", "Small Files (<100MB)", false)].

Definition row2 : list (string * string * bool) :=
  [("Avg File Size (MB)", "Average File Size (MB)", true);
   ("Largest File Size (MB)", "Largest File Size (MB)", true);
   ("Smallest File Size (MB)", "Smallest File Size (MB)", true);
   ("Avg Records per File", "Average Records per File", false);
   ("Std Dev File Size (MB)", "Std Dev File Size (MB)", true);
   ("Variance File Size (Bytes²)", "Variance File Size (Bytes²)", false)].

Definition metric_key (m : string * string * bool) : string := snd (fst m).

Definition metric_label (m : string * string * bool) : string := fst (fst m).

(** The first of [keys] that the dict lacks. *)
Fixpoint first_missing {V : Type} (stats : list (string * V))
    (keys : list string) : option string :=
  match keys with
  | [] => None
  | k :: rest =>
      match dict_get stats k with
      | Ok _ => first_missing stats rest
      | Raise _ => Some k
      end
  end.

Section Shown.

Variable Num : Type.
Variable format_thousands format_2f : Num -> result string.

Definition metric_format (m : string * string * bool) : Num -> result string :=
  if snd m then format_2f else format_thousands.

(** The text of one metric, [f"{stats[key]:fmt}"]: the lookup, then the
    formatting of what was found. *)
Definition metric_text (stats : list (string * Num))
    (m : string * string * bool) : result string :=
  match dict_get stats (metric_key m) with
  | Ok x => metric_format m x
  | Raise e => Raise e
  end.

(** The exception of the first entry, in order, whose text cannot be made. *)
Fixpoint first_failure (stats : list (string * Num))
    (ms : list (string * string * bool)) : option exn :=
  match ms with
  | [] => None
  | m :: rest =>
      match metric_text stats m with
      | Ok _ => first_failure stats rest
      | Raise e => Some e
      end
  end.

(** The metric drawn for one entry of a row, if its text can be made. *)
Definition shown (stats : list (string * Num)) (m : string * string * bool)
  : list (Container * Widget) :=
  match metric_text stats m with
  | Ok text => [(Page, Metric (metric_label m) text)]
  | Raise _ => []
  end.

(** The metrics of a row drawn one after the other, and then [k]: the shape
    of lines 93-115. *)
Definition metrics_then {Engine : Type} (stats : list (string * Num))
    (ms : list (string * string * bool)) (k : M Engine unit) : M Engine unit :=
  fold_right
    (fun m rest =>
       bind (metric Engine Num stats (metric_label m) (metric_key m)
               (metric_format m))
            (fun _ => rest))
    k ms.

End Shown.

(** The colours handed to [style_metric_cards] (lines 117-123), from the
    value of [theme.get("base")]. *)
Definition card_colors (theme_base : value) : option (string * string) :=
  match theme_base with
  | VStr "dark" => Some ("#1B1C24", "#292D34")
  | _ => None
  end.

(** What [None.get] raises. *)
Definition no_get : exn :=
  Exn AttributeError "'NoneType' object has no attribute 'get'".

(** *** Runs to try things on

    A table [db.t] whose statistics hold every key, whose history and file
    list are empty, and a schema [db] with no table at all. *)
Definition every_key : list (string * nat) :=
  map (fun m => (metric_key m, 7)) (row1 ++ row2).

Definition no_table : list (string * Response) :=
  [ (schemas_query, Rows [[VStr "db"]]);
    (tables_query (VStr "db"), Rows []) ].

Definition run_main (script : list (string * Response))
    (stats : list (string * nat)) (pressed : Button -> bool) : M nat unit :=
  main nat (scripted script refused) nat (fun _ => Ok "7") (fun _ => Ok "7.00")
    unit (ret tt) (fun _ _ => ret stats) (fun _ _ => ret (mkDataFrame [] []))
    (fun _ _ => ret (mkDataFrame [] [])) (fun _ _ _ => ret tt)
    pressed 0 0 (Some [("base", VStr "light")]) (fun _ => None).


Definition fresh : World nat := mkWorld 0 [] [] [].

(** Statistics without the key Rows; a DDL answer of two rows; manifests
    rows one cell short of the tab's eleven columns; a history of one
    snapshot. *)
Definition without_rows : list (string * nat) :=
  filter (fun kv => negb (String.eqb (fst kv) "Rows")) every_key.

Definition ddl_answer : list (string * Response) :=
  [ (ddl_query (VStr "db") (VStr "t"),
     Rows [[VStr "CREATE TABLE db.t (id bigint)"; VStr "unused"];
           [VStr "unused too"]]) ].

Definition ten_cells : row :=
  [VStr "s3://b/m.avro"; VInt 7006; VInt 0; VInt 1; VInt 0; VInt 0; VInt 0;
   VInt 0; VInt 0; VStr "[]"].

Definition short_manifests : list (string * Response) :=
  [ (view_query Manifests (VStr "db") (VStr "t"), Rows [ten_cells]) ].

Definition no_manifests : list (string * Response) :=
  [ (view_query Manifests (VStr "db") (VStr "t"), Rows []) ].

Definition one_snapshot : DataFrame :=
  mkDataFrame ["Committed At"; "Snapshot ID"; "Parent ID"; "Operation"; "Summary"]
    [[VStr "2024-05-01 10:00:00"; VInt 1; VNone; VStr "append"; VStr "{}"]].

(** Statistics whose entry Files is None, with the two formats refusing it
    as Python does; a light theme; plotly accepting every chart, and plotly
    refusing a frame that lacks the column plotted across; a list of files
    whose size is under another name; a manifests row of eleven cells. *)
Definition files_unset : list (string * option nat) :=
  map (fun m => (metric_key m,
                 if String.eqb (metric_key m) "Files" then None else Some 7))
      (row1 ++ row2).

Definition format_or_refuse (text : string) (x : option nat) : result string :=
  match x with
  | Some _ => Ok text
  | None =>
      Raise (Exn TypeError
               "unsupported format string passed to NoneType.__format__")
  end.

Definition light : option (list (string * value)) :=
  Some [("base", VStr "light")].

Definition px_accepts : Chart -> option exn := fun _ => None.

Definition chart_data (c : Chart) : DataFrame :=
  match c with
  | Scatter data _ _ _ _ _ => data
  | Histogram data _ _ _ => data
  end.

Definition chart_x (c : Chart) : string :=
  match c with
  | Scatter _ x _ _ _ _ => x
  | Histogram _ x _ _ => x
  end.

Definition px_needs_x (refusal : string) (c : Chart) : option exn :=
  if existsb (String.eqb (chart_x c)) (df_columns (chart_data c))
  then None
  else Some (Exn ValueError refusal).

Definition sizes_misnamed : DataFrame :=
  mkDataFrame ["File Path"; "Bytes"] [[VStr "s3://b/f.parquet"; VInt 4096]].

Definition no_column (name : string) : string :=
  "Value of 'x' is not the name of a column in 'data_frame'. Expected one of ['File Path', 'Bytes'] but received: "
  ++ name.

Definition eleven_cells : row :=
  [VStr "s3://b/m.avro"; VInt 7006; VInt 0; VInt 1; VInt 2; VInt 1; VInt 0;
   VInt 0; VInt 0; VInt 0; VStr "[]"].

End AppReadings.

Module AppFacts.
Import App.

Section Tabs.

Variable Engine : Type.
Variable execute : Engine -> string -> Response * Engine.

Local Open Scope script_scope.

Lemma run_tab_step (t : TabId) (schema table : value) (w : World Engine) :
  run_tab Engine execute t schema table w =
  (Ok tt,
   mkWorld (snd (execute (cursor w) (tab_query t schema table)))
           (issued w ++ [tab_query t schema table])
           (screen w ++ [(tab_container t,
                          tab_outcome t (fst (execute (cursor w) (tab_query t schema table))))])
           (called w)).
Proof.
  destruct t as [|v]; simpl;
    unfold ddl_tab, view_tab, try_except, bind, cursor_execute, lift, draw;
    simpl; destruct (execute (cursor w) _) as [[rows|e] c]; simpl; try reflexivity.
  - destruct (index rows 0) as [first|e]; simpl; [|reflexivity].
    destruct (index first 0) as [ddl|e]; reflexivity.
  - destruct (Pandas.mk rows (columns v)) as [df|e]; reflexivity.
Qed.

Lemma run_tabs_trace (ts : list TabId) (schema table : value) (w : World Engine) :
  run_tabs Engine execute ts schema table w =
  (Ok tt,
   mkWorld (engine_after Engine execute (cursor w)
              (map (fun t => tab_query t schema table) ts))
           (issued w ++ map (fun t => tab_query t schema table) ts)
           (screen w ++ tabs_drawn Engine execute ts schema table (cursor w))
           (called w)).
Proof.
  revert w; induction ts as [|t ts IH]; intros w.
  - destruct w; unfold tabs_drawn; simpl. now rewrite !app_nil_r.
  - simpl. unfold bind. rewrite run_tab_step. rewrite IH. simpl.
    unfold tabs_drawn. simpl. now rewrite <- !app_assoc.
Qed.

Lemma bind_ext {A B : Type} (m : M Engine A) (k1 k2 : A -> M Engine B)
    (w : World Engine) :
  (forall a w', k1 a w' = k2 a w') -> bind m k1 w = bind m k2 w.
Proof.
  intros H. unfold bind. destruct (m w) as [[a|e] w']; [apply H|reflexivity].
Qed.

Lemma metadata_tabs_run_tabs (schema table : value) (w : World Engine) :
  metadata_tabs Engine execute schema table w =
  run_tabs Engine execute all_tabs schema table w.
Proof.
  unfold metadata_tabs, all_tabs, all_views. simpl map. simpl run_tabs.
  do 11 (apply bind_ext; intros _ ?w).
  unfold bind, ret.
  change (view_tab Engine execute Refs schema table)
    with (run_tab Engine execute (ViewTab Refs) schema table).
  rewrite run_tab_step. reflexivity.
Qed.

(** C1.  Whatever the engine answers, the tab section of [main] never raises;
    it sends all twelve statements, in order, and the widget drawn in each tab
    is decided by the engine's answer to that tab's statement alone: an
    exception there becomes that tab's [st.error] carrying the exception's
    text, a well-shaped result becomes that tab's data frame.  A failure in
    one tab therefore neither stops nor changes any other tab. *)
Theorem tab_failures_are_isolated (schema table : value) (w : World Engine) :
  let qs := map (fun t => tab_query t schema table) all_tabs in
  let rs := answers Engine execute (cursor w) qs in
  exists w',
    metadata_tabs Engine execute schema table w = (Ok tt, w')
    /\ issued w' = issued w ++ qs
    /\ called w' = called w
    /\ screen w' =
         screen w ++ map (fun tr => (tab_container (fst tr),
                                     tab_outcome (fst tr) (snd tr)))
                         (combine all_tabs rs)
    /\ length rs = length all_tabs
    /\ (forall i t r,
          nth_error all_tabs i = Some t ->
          nth_error rs i = Some r ->
          nth_error (screen w') (length (screen w) + i)
            = Some (tab_container t, tab_outcome t r))
    /\ (forall t e,
          tab_outcome t (Fails e)
            = Error (tab_error_label t ++ ": " ++ str_exn e))
    /\ (forall v rows df,
          Pandas.mk rows (columns v) = Ok df ->
          tab_outcome (ViewTab v) (Rows rows) = Dataframe df).
Proof.
  intros qs rs.
  eexists. split.
  { rewrite metadata_tabs_run_tabs. apply run_tabs_trace. }
  cbn [issued screen cursor called].
  split; [reflexivity|]. split; [reflexivity|]. split; [reflexivity|].
  split; [reflexivity|]. split.
  - intros i t r Ht Hr.
    rewrite nth_error_app2 by lia.
    replace (length (screen w) + i - length (screen w)) with i by lia.
    unfold tabs_drawn. fold qs. fold rs.
    rewrite nth_error_map.
    assert (Hc : nth_error (combine all_tabs rs) i = Some (t, r)).
    { clear - Ht Hr. revert i Ht Hr. generalize all_tabs as ts. generalize rs as l.
      induction l as [|r' l IH]; intros ts i Ht Hr.
      - destruct i; discriminate.
      - destruct ts as [|t' ts]; [destruct i; discriminate|].
        destruct i as [|i]; simpl in *.
        + congruence.
        + now apply IH. }
    now rewrite Hc.
  - split.
    + intros t e. reflexivity.
    + intros v rows df H. simpl. now rewrite H.
Qed.

End Tabs.

Lemma tab_failures_are_isolated_witness :
  let w' := snd (metadata_tabs nat
                   (scripted two_failures (Fails (Exn EngineError "unavailable")))
                   (VStr "db") (VStr "t") (mkWorld 0 [] [] [])) in
  nth_error (screen w') 1
    = Some (Tab 1, Error "Error loading properties: TABLE_NOT_FOUND")
  /\ nth_error (screen w') 2
    = Some (Tab 2, Error "Error loading history: PERMISSION_DENIED")
  /\ nth_error (screen w') 7
    = Some (Tab 7, Dataframe (mkDataFrame (columns Partitions)
                                [[VInt 10; VInt 2; VInt 4096; VStr "{}"]]))
  /\ length (issued w') = 12.
Proof.
  destruct (tab_failures_are_isolated nat
              (scripted two_failures (Fails (Exn EngineError "unavailable")))
              (VStr "db") (VStr "t") (mkWorld 0 [] [] []))
    as (w' & Hrun & Hq & _ & _ & _ & Hat & _).
  rewrite Hrun. cbn [snd].
  repeat split.
  - exact (Hat 1 _ _ eq_refl eq_refl).
  - exact (Hat 2 _ _ eq_refl eq_refl).
  - exact (Hat 7 _ _ eq_refl eq_refl).
  - rewrite Hq. reflexivity.
Defined.

(** *** The sidebar *)

Section Sidebar.

Variable Engine : Type.
Variable execute : Engine -> string -> Response * Engine.
Variable Num : Type.
Variable format_thousands format_2f : Num -> result string.
Variable MaintenanceOutcome : Type.
Variable init_connection : M Engine unit.
Variable fetch_stats : value -> value -> M Engine (list (string * Num)).
Variable load_snapshot_history load_file_details : value -> value -> M Engine DataFrame.
Variable execute_alter_table : value -> value -> string -> M Engine MaintenanceOutcome.
Variable pressed : Button -> bool.
Variable picked_schema picked_table : nat.
Variable theme : option (list (string * value)).
Variable px_raises : Chart -> option exn.

Local Open Scope script_scope.

Local Abbreviation the_main :=
  (main Engine execute Num format_thousands format_2f MaintenanceOutcome
     init_connection fetch_stats load_snapshot_history load_file_details
     execute_alter_table pressed picked_schema picked_table theme px_raises).

(** Everything [main] does before it looks at the buttons. *)
Local Abbreviation reach_the_buttons :=
  (draw Page (Title "📊 Iceberg Metadata Insights");;
   call "init_connection" [] init_connection;;
   select_table Engine execute picked_schema picked_table).

Lemma analyze_action_raises (schema table : value) (w : World Engine)
    (e : exn) (c' : Engine) :
  pressed AnalyzeTable = true ->
  execute (cursor w) (analyze_statement schema table) = (Fails e, c') ->
  analyze_action Engine execute pressed schema table w =
  (Raise e,
   mkWorld c' (issued w ++ [analyze_statement schema table])
     (screen w ++ [(Sidebar, Spinner "Analyzing table...")]) (called w)).
Proof.
  intros Hp He.
  unfold analyze_action, when. rewrite Hp.
  unfold bind, draw, cursor_execute. cbn [cursor issued screen called].
  rewrite He. reflexivity.
Qed.

(** C10.  When [main] has reached the buttons with [schema] and [table]
    selected, the Analyze button is down and the engine answers the ANALYZE
    statement with the exception [e], then [main] itself ends with [e]
    raised: the statement was sent, the spinner is the last thing drawn, no
    success or error widget follows, and nothing after it runs. *)
Theorem analyze_error_escapes_main (w w1 : World Engine) (schema table : value)
    (e : exn) (c' : Engine) :
  reach_the_buttons w = (Ok (schema, table), w1) ->
  pressed AnalyzeTable = true ->
  execute (cursor w1) (analyze_statement schema table) = (Fails e, c') ->
  the_main w =
  (Raise e,
   mkWorld c' (issued w1 ++ [analyze_statement schema table])
     (screen w1 ++ [(Sidebar, Divider);
                    (Sidebar, Header "⚙️ Table Actions");
                    (Sidebar, Spinner "Analyzing table...")])
     (called w1)).
Proof.
  intros Hreach Hp He.
  unfold main. unfold bind at 1 2 3.
  unfold bind at 1 2 in Hreach.
  destruct (draw Page (Title "📊 Iceberg Metadata Insights") w) as [[[]|e0] w0];
    [|discriminate].
  destruct (call "init_connection" [] init_connection w0) as [[[]|e1] w0'];
    [|discriminate].
  rewrite Hreach.
  unfold table_actions. unfold bind at 1 2 3 4.
  cbn [draw cursor issued screen called].
  erewrite analyze_action_raises; [|exact Hp|cbn [cursor]; exact He].
  cbn [cursor issued screen called]. now rewrite <- !app_assoc.
Qed.

End Sidebar.

Lemma analyze_error_escapes_main_witness :
  idle_main (only AnalyzeTable) (mkWorld 0 [] [] [])
  = (Raise (Exn EngineError "Access Denied: Cannot analyze table db.t"),
     mkWorld 3 [schemas_query; tables_query (VStr "db"); "ANALYZE db.t"]
       [(Page, Title "📊 Iceberg Metadata Insights");
        (Sidebar, Header "🔍 Select Table");
        (Sidebar, Divider);
        (Sidebar, Header "⚙️ Table Actions");
        (Sidebar, Spinner "Analyzing table...")]
       [("init_connection", [])]).
Proof.
  unfold idle_main.
  rewrite (analyze_error_escapes_main nat (scripted one_table refused) unit
             (fun _ => Ok "") (fun _ => Ok "") unit (ret tt) (fun _ _ => ret [])
             (fun _ _ => ret (mkDataFrame [] [])) (fun _ _ => ret (mkDataFrame [] []))
             (fun _ _ _ => ret tt) (only AnalyzeTable) 0 0 (Some [])
             (fun _ => None)
             (mkWorld 0 [] [] [])
             (mkWorld 2 [schemas_query; tables_query (VStr "db")]
                [(Page, Title "📊 Iceberg Metadata Insights");
                 (Sidebar, Header "🔍 Select Table")]
                [("init_connection", [])])
             (VStr "db") (VStr "t")
             (Exn EngineError "Access Denied: Cannot analyze table db.t") 3
             eq_refl eq_refl eq_refl).
  reflexivity.
Defined.

(** *** The snapshot chart *)

(** The chart of the timeline (lines 128-135): commit time across, one row
    and one colour per operation. *)
Lemma snapshot_chart_is_coloured_by_operation (Engine : Type)
    (load_snapshot_history : value -> value -> M Engine DataFrame)
    (px_raises : Chart -> option exn)
    (schema table : value) (w w1 : World Engine) (history : DataFrame) :
  let chart := Scatter history "Committed At" "Operation" "Operation"
                 ["Snapshot ID"; "Parent ID"; "Summary"] "Snapshot Timeline" in
  load_snapshot_history schema table w = (Ok history, w1) ->
  empty history = false ->
  px_raises chart = None ->
  snapshot_timeline Engine load_snapshot_history px_raises schema table w =
  (Ok tt,
   mkWorld (cursor w1) (issued w1)
     (screen w1 ++
      [(Page, Subheader "⏳ Snapshot Timeline");
       (Page, PlotlyChart chart);
       (Page, Expander "Snapshot Details");
       (Page, Dataframe history)])
     (called w ++ [("load_snapshot_history", [schema; table])])).
Proof.
  intros chart Hload Hne Hpx.
  unfold snapshot_timeline, bind, call, draw, px. rewrite Hload, Hne.
  fold chart. rewrite Hpx.
  cbn [negb ret cursor issued screen called]. now rewrite <- !app_assoc.
Qed.

(** *** The maintenance buttons and their thresholds *)

Section Thresholds.

Variable Engine : Type.
Variable MaintenanceOutcome : Type.
Variable execute_alter_table : value -> value -> string -> M Engine MaintenanceOutcome.
Variable pressed : Button -> bool.

Lemma logs_then (m1 m2 : M Engine unit) (c1 c2 : list (string * list value)) :
  logs m1 c1 -> logs m2 c2 -> logs (bind m1 (fun _ => m2)) (c1 ++ c2).
Proof.
  intros H1 H2 w. unfold bind.
  destruct (H1 w) as (d1 & r1 & Hc1 & Hs1 & Hok1).
  destruct (m1 w) as [[[]|e] w1]; cbn [fst snd] in *.
  - rewrite (Hok1 eq_refl), app_nil_r in Hs1. subst d1.
    destruct (H2 w1) as (d2 & r2 & Hc2 & Hs2 & Hok2).
    exists (c1 ++ d2), r2. rewrite Hc2, Hc1, Hs2. rewrite <- !app_assoc.
    repeat split; auto.
  - exists d1, (r1 ++ c2). rewrite Hs1, <- app_assoc.
    repeat split; auto. discriminate.
Qed.

Lemma maintenance_button_logs (b : Button) (spinner procedure : string)
    (schema table : value) :
  logs (maintenance_button Engine MaintenanceOutcome execute_alter_table
          pressed b spinner procedure schema table)
       (if pressed b then [Section6.request schema table procedure] else []).
Proof.
  intros w. unfold maintenance_button, when.
  destruct (pressed b).
  - exists [Section6.request schema table procedure], [].
    unfold bind, draw, call, ret. cbn [cursor issued screen called].
    destruct (execute_alter_table schema table procedure _) as [[r|e] w'];
      cbn [fst snd called]; repeat split; auto.
  - exists [], []. unfold ret. cbn. rewrite app_nil_r. repeat split; auto.
Qed.

Lemma maintenance_actions_log (schema table : value) :
  logs (maintenance_actions Engine MaintenanceOutcome execute_alter_table
          pressed schema table)
       (Section6.requests "128MB" "7d" "7d" pressed schema table).
Proof.
  unfold maintenance_actions, Section6.requests.
  repeat apply logs_then; apply maintenance_button_logs.
Qed.

(** C9, as the code has it.  Whatever [execute_alter_table] does, whichever
    buttons are down and whatever table is selected, the requests the
    maintenance buttons make are those of section 6 with the file-size
    threshold 128MB and both retention thresholds 7d, in the order of the
    buttons: a prefix of them if a request raises, all of them otherwise. *)
Theorem maintenance_thresholds_are_fixed (schema table : value) (w : World Engine) :
  exists done rest,
    called (snd (maintenance_actions Engine MaintenanceOutcome execute_alter_table
                   pressed schema table w))
    = called w ++ done
    /\ Section6.requests Connection.DEFAULT_FILE_SIZE_THRESHOLD
         Connection.DEFAULT_RETENTION_THRESHOLD
         Connection.DEFAULT_RETENTION_THRESHOLD pressed schema table
       = done ++ rest
    /\ (fst (maintenance_actions Engine MaintenanceOutcome execute_alter_table
               pressed schema table w) = Ok tt -> rest = []).
Proof.
  revert w.
  change (logs (maintenance_actions Engine MaintenanceOutcome execute_alter_table
                  pressed schema table)
               (Section6.requests "128MB" "7d" "7d" pressed schema table)).
  unfold maintenance_actions, Section6.requests.
  repeat apply logs_then; apply maintenance_button_logs.
Qed.

End Thresholds.

Lemma request_is_fixed (pressed : Button -> bool) (schema table : value)
    (r : string * list value) :
  In r (Section6.requests "128MB" "7d" "7d" pressed schema table) ->
  In r (map (Section6.request schema table)
          ["optimize(file_size_threshold => '128MB')"; "optimize_manifests";
           "expire_snapshots(retention_threshold => '7d')";
           "remove_orphan_files(retention_threshold => '7d')";
           "drop_extended_stats"]).
Proof.
  unfold Section6.requests. intros H.
  repeat (apply in_app_or in H; destruct H as [H|H]);
    match type of H with
    | In _ (if ?c then _ else _) => destruct c
    end; simpl in H; try contradiction;
    destruct H as [<-|[]]; simpl; tauto.
Qed.

(** C9, as stated, fails: no run of the maintenance buttons ever asks for an
    optimize with a file-size threshold of 64MB. *)
Lemma file_size_threshold_is_not_a_parameter :
  ~ Section6.file_size_threshold_is_a_parameter.
Proof.
  intros H.
  destruct (H "64MB") as (Engine & Outcome & eat & pressed & schema & table & w & Hw & Hin).
  destruct (maintenance_actions_log Engine Outcome eat pressed schema table w)
    as (done & rest & Hc & Hr & _).
  rewrite Hc, Hw in Hin. cbn [app] in Hin.
  assert (Hin' : In (Section6.request schema table (Connection.optimize_call "64MB"))
                    (Section6.requests "128MB" "7d" "7d" pressed schema table)).
  { rewrite Hr. apply in_or_app. now left. }
  apply request_is_fixed in Hin'. simpl in Hin'.
  unfold Section6.request in Hin'.
  repeat (destruct Hin' as [Hin'|Hin']; [discriminate Hin'|]).
  exact Hin'.
Qed.

Lemma maintenance_thresholds_are_fixed_witness :
  called (snd (maintenance_actions nat unit (fun _ _ _ => ret tt)
                 (only OptimizeVacuumTable) (VStr "db") (VStr "t")
                 (mkWorld 0 [] [] [])))
  = [("execute_alter_table",
      [VStr "db"; VStr "t"; VStr "optimize(file_size_threshold => '128MB')"])].
Proof.
  destruct (maintenance_thresholds_are_fixed nat unit (fun _ _ _ => ret tt)
              (only OptimizeVacuumTable) (VStr "db") (VStr "t")
              (mkWorld 0 [] [] []))
    as (done & rest & Hc & Hr & Hok).
  rewrite Hc. rewrite (Hok eq_refl), app_nil_r in Hr. now rewrite <- Hr.
Defined.

(** *** The column schemas *)

Lemma row_within_data_width (rows : list row) (r : row) :
  In r rows -> length r <= data_width rows.
Proof.
  induction rows as [|r' rows IH]; [contradiction|].
  cbn [data_width fold_right]. fold (data_width rows).
  intros [->|Hin]; [lia|]. specialize (IH Hin). lia.
Qed.

Lemma pad_length (w : nat) (r : row) : length r <= w -> length (pad w r) = w.
Proof. intros H. unfold pad. rewrite length_app, repeat_length. lia. Qed.

(** The shape of a frame pandas has made: the names as given, one row of the
    frame for each row of the data, each as wide as the list of names, which
    is the width of the data when there is any. *)
Lemma frame_shape (rows : list row) (names : list string) (df : DataFrame) :
  Pandas.mk rows names = Ok df ->
  df_columns df = names
  /\ length (df_rows df) = length rows
  /\ Forall (fun r => length r = length names) (df_rows df)
  /\ (rows <> [] -> data_width rows = length names).
Proof.
  unfold Pandas.mk. destruct rows as [|r rows].
  - intros [= <-]. cbn [df_columns df_rows]. repeat split.
    + constructor.
    + intros H. now contradiction H.
  - destruct (Nat.eqb_spec (data_width (r :: rows)) (length names)) as [Hw|_];
      [|discriminate].
    intros [= <-]. cbn [df_columns df_rows].
    change (pad (length names) r :: map (pad (length names)) rows)
      with (map (pad (length names)) (r :: rows)).
    repeat split.
    + now rewrite length_map.
    + apply Forall_forall. intros r' Hin.
      apply in_map_iff in Hin as (r0 & <- & Hin).
      apply pad_length. rewrite <- Hw. now apply row_within_data_width.
    + intros _. exact Hw.
Qed.

(** C7, as stated, fails: the manifests tab names eleven columns, with
    "Added Snapshot ID" fourth, where section 6 lists ten. *)
Lemma manifests_schema_differs :
  ~ Section6.schema_as_listed Manifests.
Proof. unfold Section6.schema_as_listed. discriminate. Qed.

(** C7, as the code has it.  A frame shown in a view's tab carries exactly
    the names of that tab's [columns=] list, in that order, and the rows
    shown fit that list: the frame has one row for each row the engine
    returned, every one of them as wide as the list, and when the engine
    returned any row the width of its rows is the length of the list.  For
    every view but manifests the list is the one of section 6, and for
    manifests it is section 6's list with "Added Snapshot ID" inserted after
    "Partition Spec ID". *)
Theorem view_columns_are_fixed (v : View) (rows : list row) (df : DataFrame) :
  tab_outcome (ViewTab v) (Rows rows) = Dataframe df ->
  df_columns df = columns v
  /\ columns v =
     match v with
     | Manifests =>
         firstn 3 (Section6.columns Manifests) ++ ["Added Snapshot ID"]
         ++ skipn 3 (Section6.columns Manifests)
     | _ => Section6.columns v
     end
  /\ length (df_rows df) = length rows
  /\ Forall (fun r => length r = length (columns v)) (df_rows df)
  /\ (rows <> [] -> data_width rows = length (columns v)).
Proof.
  intros H. cbn [tab_outcome] in H.
  destruct (Pandas.mk rows (columns v)) as [df'|e] eqn:E; [|discriminate].
  injection H as <-.
  destruct (frame_shape _ _ _ E) as (Hnames & Hrows & Hwide & Hwidth).
  split; [exact Hnames|]. split; [destruct v; reflexivity|].
  split; [exact Hrows|]. split; [exact Hwide|exact Hwidth].
Qed.

Lemma view_columns_are_fixed_witness :
  let df := mkDataFrame (columns Manifests) [AppReadings.eleven_cells] in
  tab_outcome (ViewTab Manifests) (Rows [AppReadings.eleven_cells])
  = Dataframe df
  /\ df_columns df =
     ["Path"; "Length"; "Partition Spec ID"; "Added Snapshot ID";
      "Added Data Files Count"; "Existing Data Files Count";
      "Deleted Data Files Count"; "Added Position Deletes Count";
      "Existing Position Deletes Count"; "Deleted Position Deletes Count";
      "Partitions"]
  /\ Forall (fun r => length r = 11) (df_rows df)
  /\ data_width [AppReadings.eleven_cells] = 11.
Proof.
  intros df.
  destruct (view_columns_are_fixed Manifests [AppReadings.eleven_cells] df
              eq_refl) as (H1 & H2 & _ & H3 & H4).
  split; [reflexivity|]. split; [rewrite H1, H2; reflexivity|].
  split; [exact H3|]. apply H4. discriminate.
Defined.

End AppFacts.

(** ** Identifiers in the statements of the tabs *)

Module SqlFacts.
Import App Sql.
Local Open Scope string_scope.

Lemma append_assoc (a b c : string) : (a ++ b) ++ c = a ++ (b ++ c).
Proof. induction a as [|x a IH]; simpl; [reflexivity|now rewrite IH]. Qed.

Lemma append_nil_r (a : string) : a ++ "" = a.
Proof. induction a as [|x a IH]; simpl; [reflexivity|now rewrite IH]. Qed.

Lemma word_char_is_no_space (c : ascii) :
  is_word_char c = true -> is_space c = false.
Proof.
  destruct c as [[] [] [] [] [] [] [] []]; vm_compute; congruence.
Qed.

(** Scanning a text in two parts. *)
Lemma scan_app (p x : string) (m : mode) :
  scan m (p ++ x) =
  (fst (scan m p) ++ fst (scan (snd (scan m p)) x),
   snd (scan (snd (scan m p)) x))%list.
Proof.
  revert m. induction p as [|c p IH]; intros m.
  - cbn [append scan fst snd app]. now destruct (scan m x).
  - cbn [append scan]. destruct (step m c) as [ts m1]. rewrite IH.
    destruct (scan m1 p) as [ts1 m2]. cbn [fst snd].
    destruct (scan m2 x) as [ts2 m3]. cbn [fst snd].
    now rewrite app_assoc.
Qed.

(** Inside a word, word characters only extend it. *)
Lemma scan_word (w acc : string) :
  all_chars is_word_char w = true ->
  scan (InWord acc) w = ([], InWord (acc ++ w)).
Proof.
  revert acc. induction w as [|c w IH]; intros acc H.
  - now rewrite append_nil_r.
  - cbn [all_chars] in H. apply andb_prop in H as [Hc Hw].
    cbn [scan step]. rewrite Hc. rewrite (IH _ Hw).
    unfold snoc. now rewrite append_assoc.
Qed.

Lemma scan_plain_word (w : string) :
  plain_word w = true -> scan Between w = ([], InWord w).
Proof.
  destruct w as [|c w]; [discriminate|]. cbn [plain_word all_chars].
  intros H. apply andb_prop in H as [_ H]. apply andb_prop in H as [Hc Hw].
  cbn [scan step]. unfold step_between.
  rewrite (word_char_is_no_space c Hc), Hc.
  now rewrite (scan_word w _ Hw).
Qed.

(** Inside a delimited identifier, anything but a quote only extends it. *)
Lemma scan_quoted (t acc : string) :
  quote_free t = true ->
  scan (InQuoted acc) t = ([], InQuoted (acc ++ t)).
Proof.
  unfold quote_free. revert acc. induction t as [|c t IH]; intros acc H.
  - now rewrite append_nil_r.
  - cbn [all_chars] in H. apply andb_prop in H as [Hc Ht].
    apply negb_true_iff in Hc.
    cbn [scan step]. rewrite Hc. rewrite (IH _ Ht).
    unfold snoc. now rewrite append_assoc.
Qed.

(** How the engine reads [schema."table$view"] when [schema] is a plain word
    and [table] holds no double quote: two tokens, and the delimited
    identifier whose closing quote has just been read. *)
Lemma scan_metadata_table (v : View) (schema table : value) :
  plain_word (str schema) = true ->
  quote_free (str table) = true ->
  scan Between (metadata_table v schema table)
  = ([Word (str schema); Symbol "."],
     QuoteSeen (str table ++ "$" ++ view_name v)).
Proof.
  intros Hs Ht. unfold metadata_table.
  generalize dependent (str schema). generalize dependent (str table).
  intros tb Ht sc Hs.
  assert (Hn : quote_free (view_name v) = true) by (destruct v; reflexivity).
  generalize dependent (view_name v). intros name Hn.
  rewrite scan_app, (scan_plain_word sc Hs). cbn [fst snd app].
  rewrite scan_app.
  change (scan (InWord sc) ".") with ([Word sc; Symbol "."], Between).
  cbn [fst snd].
  rewrite scan_app. change (scan Between dq) with (@nil token, InQuoted "").
  cbn [fst snd app].
  rewrite scan_app, (scan_quoted tb "" Ht). cbn [fst snd app append].
  cbn [scan step]. change (is_dquote "$") with false. cbv iota.
  rewrite scan_app, (scan_quoted name _ Hn). cbn [fst snd app].
  change (scan (InQuoted (snoc tb "$" ++ name)) dq)
    with (@nil token, QuoteSeen (snoc tb "$" ++ name)).
  cbn [fst snd app].
  unfold snoc. now rewrite append_assoc.
Qed.

Lemma scan_star_opening :
  scan Between "SELECT * FROM " = (star_opening, Between).
Proof. vm_compute. reflexivity. Qed.

Lemma scan_entries_opening :
  scan Between ("SELECT " ++ entries_projection ++ " FROM ")
  = (entries_opening, Between).
Proof. vm_compute. reflexivity. Qed.

Lemma scan_files_opening :
  scan Between
    (nl ++ spaces 24
     ++ "SELECT content, file_path, record_count, file_format, file_size_in_bytes"
     ++ nl ++ spaces 24 ++ "FROM ")
  = (files_opening, Between).
Proof. vm_compute. reflexivity. Qed.

Lemma scan_files_tail (acc : string) :
  scan (QuoteSeen acc) (nl ++ spaces 20) = ([Quoted acc], Between).
Proof.
  change (nl ++ spaces 20) with (nl ++ (spaces 20 ++ "")).
  rewrite scan_app.
  change (scan (QuoteSeen acc) nl) with ([Quoted acc], Between).
  cbn [fst snd].
  replace (scan Between (spaces 20 ++ "")) with (@nil token, Between)
    by (vm_compute; reflexivity).
  reflexivity.
Qed.

(** The statement of a view, as opening, relation and tail. *)
Lemma view_query_parts (v : View) (schema table : value) :
  exists opening tail,
    view_query v schema table
    = opening ++ metadata_table v schema table ++ tail
    /\ scan Between opening
       = (match v with
          | Files => files_opening
          | Entries | AllEntries => entries_opening
          | _ => star_opening
          end, Between)
    /\ (forall acc, finish (scan (QuoteSeen acc) tail) = Some [Quoted acc]).
Proof.
  destruct v;
    try (exists "SELECT * FROM ", ""; split;
         [cbn [view_query]; now rewrite append_nil_r
         |split; [exact scan_star_opening|reflexivity]]).
  - exists (nl ++ spaces 24
            ++ "SELECT content, file_path, record_count, file_format, file_size_in_bytes"
            ++ nl ++ spaces 24 ++ "FROM "), (nl ++ spaces 20).
    split; [|split].
    + cbn [view_query]. now rewrite !append_assoc.
    + exact scan_files_opening.
    + intros acc. now rewrite scan_files_tail.
  - exists ("SELECT " ++ entries_projection ++ " FROM "), "".
    split; [|split].
    + cbn [view_query]. now rewrite !append_assoc, append_nil_r.
    + exact scan_entries_opening.
    + reflexivity.
  - exists ("SELECT " ++ entries_projection ++ " FROM "), "".
    split; [|split].
    + cbn [view_query]. now rewrite !append_assoc, append_nil_r.
    + exact scan_entries_opening.
    + reflexivity.
Qed.

Lemma finish_after (pre : list token) (r : list token * mode) :
  finish ((pre ++ fst r)%list, snd r) = option_map (app pre) (finish r).
Proof.
  destruct r as [ts m]. unfold finish. cbn [fst snd].
  destruct m; cbn [option_map]; now rewrite ?app_assoc.
Qed.

Lemma lex_view_query (v : View) (schema table : value) :
  plain_word (str schema) = true ->
  quote_free (str table) = true ->
  lex (view_query v schema table)
  = Some ((match v with
           | Files => files_opening
           | Entries | AllEntries => entries_opening
           | _ => star_opening
           end)
          ++ [Word (str schema); Symbol ".";
              Quoted (str table ++ "$" ++ view_name v)])%list.
Proof.
  intros Hs Ht.
  destruct (view_query_parts v schema table) as (opening & tail & Hq & Hopen & Htail).
  unfold lex. rewrite Hq.
  rewrite scan_app, Hopen. cbn [fst snd].
  rewrite scan_app, (scan_metadata_table v schema table Hs Ht). cbn [fst snd].
  rewrite app_assoc, finish_after, Htail. cbn [option_map].
  now rewrite <- app_assoc.
Qed.

Lemma relation_read_view_query (reserved : string -> bool) (v : View)
    (schema table : value) :
  plain_word (str schema) = true ->
  quote_free (str table) = true ->
  relation_read reserved (view_query v schema table)
  = if reserved (str schema) then None
    else Some (intended_relation v schema table).
Proof.
  intros Hs Ht. unfold relation_read, intended_relation.
  rewrite (lex_view_query v schema table Hs Ht).
  destruct v; cbn; destruct (reserved (str schema)); reflexivity.
Qed.

(** A schema whose name is a reserved word makes a statement the engine
    does not read at all. *)
Lemma reserved_schema_is_refused (reserved : string -> bool) (v : View)
    (schema table : value) :
  plain_word (str schema) = true ->
  quote_free (str table) = true ->
  reserved (str schema) = true ->
  relation_read reserved (view_query v schema table) = None.
Proof.
  intros Hs Ht Hr. now rewrite (relation_read_view_query _ _ _ _ Hs Ht), Hr.
Qed.

(** C8, as the code has it.  The statement of each tab is the schema and the
    table spliced into the text as they are, the table between double
    quotes.  When the schema is a plain word that the engine does not
    reserve and the table holds no double quote, the engine reads from the
    statement the relation that was meant: the view of that table in that
    schema.  This holds whatever the words the engine reserves. *)
Theorem plain_identifiers_are_preserved (reserved : string -> bool) (v : View)
    (schema table : value) :
  plain_word (str schema) = true ->
  reserved (str schema) = false ->
  quote_free (str table) = true ->
  identifiers_preserved reserved v schema table.
Proof.
  intros Hs Hr Ht. unfold identifiers_preserved.
  now rewrite (relation_read_view_query _ _ _ _ Hs Ht), Hr.
Qed.

Lemma plain_identifiers_are_preserved_witness :
  relation_read keywords (view_query Files (VStr "sales") (VStr "daily orders"))
  = Some ["sales"; "daily orders$files"].
Proof.
  exact (plain_identifiers_are_preserved keywords Files (VStr "sales")
           (VStr "daily orders") eq_refl eq_refl eq_refl).
Defined.

(** C8, as stated, fails.  A table named [b"."t] in schema [a] gives the
    very text that table [t] gives when the schema is written [a."b"]; the
    engine reads from it the view of [t] in [a.b], not the view of the table
    that was selected. *)
Lemma quoted_identifier_changes_the_relation :
  let schema := VStr "a" in
  let table := VStr ("b" ++ dq ++ "." ++ dq ++ "t") in
  ~ identifiers_preserved keywords Properties schema table
  /\ relation_read keywords (view_query Properties schema table)
     = Some ["a"; "b"; "t$properties"]
  /\ view_query Properties schema table
     = view_query Properties (VStr ("a." ++ dq ++ "b" ++ dq)) (VStr "t").
Proof.
  cbv zeta. split; [|split].
  - unfold identifiers_preserved. vm_compute. discriminate.
  - vm_compute. reflexivity.
  - vm_compute. reflexivity.
Qed.

End SqlFacts.

(** ** The orchestrator, the aggregation and the timeline *)

Module ConnectionFacts.
Import Connection.

(** *** MaintenanceOrchestrator *)

Section Orchestrator.

Variable Engine : Type.
Variable execute : Engine -> string -> Response * Engine.


End Orchestrator.



(** *** StatsAggregator *)

Lemma nat_to_Q_positive (n : nat) : (0 < n)%nat -> (0 < nat_to_Q n)%Q.
Proof.
  intros H. unfold nat_to_Q, Qlt. cbn [Qnum Qden inject_Z]. lia.
Qed.

Lemma checked_div_defined (a : Q) (n : nat) :
  (0 < n)%nat -> checked_div a (nat_to_Q n) = Some (a / nat_to_Q n)%Q.
Proof.
  intros H. unfold checked_div.
  destruct (Qeq_bool (nat_to_Q n) 0) eqn:E; [|reflexivity].
  apply Qeq_bool_eq in E. pose proof (nat_to_Q_positive n H) as Hp.
  rewrite E in Hp. discriminate Hp.
Qed.

Lemma mean_defined (xs : list Q) :
  (0 < length xs)%nat ->
  mean xs = Some (total xs / nat_to_Q (length xs))%Q.
Proof. intros H. unfold mean. now apply checked_div_defined. Qed.

Lemma square_nonneg (a : Q) : (0 <= a * a)%Q.
Proof.
  destruct a as [n d]. unfold Qle, Qmult. cbn [Qnum Qden]. nia.
Qed.

Lemma total_of_squares_nonneg (m : Q) (xs : list Q) :
  (0 <= total (squared_deviations m xs))%Q.
Proof.
  induction xs as [|x xs IH]; cbn [squared_deviations map total fold_right].
  - discriminate.
  - fold (squared_deviations m xs). fold (total (squared_deviations m xs)).
    pose proof (square_nonneg (x - m)). lra.
Qed.

Lemma squared_deviations_length (m : Q) (xs : list Q) :
  length (squared_deviations m xs) = length xs.
Proof. apply length_map. Qed.

Lemma population_variance_defined (xs : list Q) :
  (0 < length xs)%nat ->
  population_variance xs
  = Some (total (squared_deviations (total xs / nat_to_Q (length xs)) xs)
          / nat_to_Q (length xs))%Q.
Proof.
  intros H. unfold population_variance. rewrite (mean_defined xs H).
  rewrite mean_defined; rewrite squared_deviations_length; auto.
Qed.

Lemma quotient_nonneg (a : Q) (n : nat) :
  (0 < n)%nat -> (0 <= a)%Q -> (0 <= a / nat_to_Q n)%Q.
Proof.
  intros Hn Ha. unfold Qdiv.
  apply Qmult_le_0_compat; [exact Ha|].
  apply Qlt_le_weak, Qinv_lt_0_compat. now apply nat_to_Q_positive.
Qed.

Lemma checked_sqrt_defined (v : Q) :
  (0 <= v)%Q -> checked_sqrt v = Some (sqrt (Q2R v)).
Proof.
  intros H. unfold checked_sqrt. apply Qle_bool_iff in H. now rewrite H.
Qed.

Lemma sizes_length (files : list FileRecord) :
  length (sizes_bytes files) = length files /\ length (sizes_mb files) = length files.
Proof. unfold sizes_bytes, sizes_mb. now rewrite !length_map. Qed.

(** The aggregation is defined on every input: no quotient by zero, no
    extreme of nothing, no root of a negative number. *)
Lemma StatsAggregator_total (files : list FileRecord) (p s h : N) :
  exists st, StatsAggregator files p s h = Some st
    /\ file_count st = N.of_nat (length files)
    /\ small_file_count st = count_small_files files
    /\ row_count st = sum_record_count files
    /\ Some (variance_file_size_bytes2 st) = variance_file_size files
    /\ Some (stddev_file_size st) = stddev_of_file_size files
    /\ Some (avg_file_size_mb st) = average_file_size_mb files
    /\ Some (avg_records_per_file st) = average_records_per_file files.
Proof.
  destruct (sizes_length files) as [Hb Hm].
  unfold StatsAggregator.
  assert (Havg : exists a, average_file_size_mb files = Some a).
  { unfold average_file_size_mb. destruct (Nat.eqb_spec (length files) 0).
    - eauto.
    - rewrite mean_defined by lia. eauto. }
  assert (Hmax : exists a, largest_file_size_mb files = Some a).
  { unfold largest_file_size_mb. destruct (Nat.eqb_spec (length files) 0); [eauto|].
    destruct (sizes_mb files) eqn:E; [simpl in Hm; lia|]. cbn. eauto. }
  assert (Hmin : exists a, smallest_file_size_mb files = Some a).
  { unfold smallest_file_size_mb. destruct (Nat.eqb_spec (length files) 0); [eauto|].
    destruct (sizes_mb files) eqn:E; [simpl in Hm; lia|]. cbn. eauto. }
  assert (Hper : exists a, average_records_per_file files = Some a).
  { unfold average_records_per_file. destruct (Nat.eqb_spec (length files) 0); [eauto|].
    unfold checked_div_N. destruct (N.eqb_spec (N.of_nat (length files)) 0); [lia|eauto]. }
  assert (Hvar : exists a, variance_file_size files = Some a).
  { unfold variance_file_size. destruct (Nat.leb_spec (length files) 1); [eauto|].
    rewrite population_variance_defined by lia. eauto. }
  assert (Hsd : exists a, stddev_of_file_size files = Some a).
  { unfold stddev_of_file_size. destruct (Nat.leb_spec (length files) 1); [eauto|].
    rewrite population_variance_defined by lia. cbn [and_then].
    rewrite checked_sqrt_defined; [eauto|].
    apply quotient_nonneg; [lia|apply total_of_squares_nonneg]. }
  destruct Havg as [a Ha], Hmax as [b Hb'], Hmin as [c Hc], Hper as [d Hd],
           Hvar as [v Hv], Hsd as [sd Hs].
  rewrite Ha, Hb', Hc, Hd, Hs, Hv. cbn [and_then].
  eexists. split; [reflexivity|]. cbn. repeat split; reflexivity.
Qed.

(** C3.  With no file records the aggregation is defined, and each
    size-derived statistic is its default: zero. *)
Theorem empty_table_stats_are_zero (partitions snapshots history_entries : N) :
  exists st,
    StatsAggregator [] partitions snapshots history_entries = Some st
    /\ file_count st = 0%N
    /\ avg_file_size_mb st = 0%Q
    /\ max_file_size_mb st = 0%Q
    /\ min_file_size_mb st = 0%Q
    /\ avg_records_per_file st = 0%N
    /\ stddev_file_size st = 0%R
    /\ variance_file_size_bytes2 st = 0%Q
    /\ small_file_count st = 0%N
    /\ row_count st = 0%N.
Proof.
  eexists. split; [reflexivity|]. cbn. repeat split; reflexivity.
Qed.

Lemma count_small_files_filter (files : list FileRecord) :
  count_small_files files
  = N.of_nat (length (filter (fun f => N.ltb (size_in_bytes f) 104857600) files)).
Proof.
  induction files as [|f files IH]; [reflexivity|].
  cbn [count_small_files filter].
  change SMALL_FILE_THRESHOLD_BYTES with 104857600%N.
  destruct (N.ltb (size_in_bytes f) 104857600).
  - cbn [length]. rewrite IH. lia.
  - exact IH.
Qed.

(** C5.  The aggregation's small-file count is the number of records whose
    size is strictly below 104,857,600 bytes; it is zero when every file
    has at least that size. *)
Theorem small_file_count_is_the_count (files : list FileRecord)
    (partitions snapshots history_entries : N) :
  exists st,
    StatsAggregator files partitions snapshots history_entries = Some st
    /\ small_file_count st
       = N.of_nat (length (filter (fun f => N.ltb (size_in_bytes f) 104857600) files))
    /\ (Forall (fun f => (104857600 <= size_in_bytes f)%N) files ->
        small_file_count st = 0%N).
Proof.
  destruct (StatsAggregator_total files partitions snapshots history_entries)
    as (st & Hrun & _ & Hsmall & _).
  exists st. split; [exact Hrun|]. rewrite Hsmall, count_small_files_filter.
  split; [reflexivity|].
  intros Hall. clear Hrun Hsmall.
  induction Hall as [|f files Hf _ IH]; [reflexivity|].
  cbn [filter]. destruct (N.ltb_spec (size_in_bytes f) 104857600); [lia|exact IH].
Qed.

Lemma total_squared_deviations (m : Q) (xs : list Q) :
  (total (squared_deviations m xs)
   == total (map (fun x => x * x) xs) - 2 * m * total xs
      + nat_to_Q (length xs) * m * m)%Q.
Proof.
  induction xs as [|x xs IH].
  - cbn [squared_deviations map total fold_right length].
    change (nat_to_Q 0) with 0%Q. ring.
  - cbn [squared_deviations map total fold_right length].
    fold (squared_deviations m xs). fold (total (squared_deviations m xs)).
    fold (total (map (fun x => (x * x)%Q) xs)). fold (total xs).
    rewrite IH.
    assert (Hn : (nat_to_Q (S (length xs)) == nat_to_Q (length xs) + 1)%Q).
    { unfold nat_to_Q. rewrite Nat2Z.inj_succ, <- Z.add_1_r, inject_Z_plus.
      reflexivity. }
    rewrite Hn. ring.
Qed.

Lemma variance_and_stddev_run (files : list FileRecord)
    (partitions snapshots history_entries : N) :
  let xs := sizes_bytes files in
  let n := nat_to_Q (length files) in
  exists st,
    StatsAggregator files partitions snapshots history_entries = Some st
    /\ ((length files <= 1)%nat ->
        variance_file_size_bytes2 st = 0%Q /\ stddev_file_size st = 0%R)
    /\ ((2 <= length files)%nat ->
        exists m,
          mean xs = Some m
          /\ (m * n == total xs)%Q
          /\ (variance_file_size_bytes2 st * n == total (squared_deviations m xs))%Q
          /\ (n * (n * variance_file_size_bytes2 st)
              == n * total (map (fun x => x * x) xs) - total xs * total xs)%Q
          /\ (0 <= variance_file_size_bytes2 st)%Q
          /\ stddev_file_size st = sqrt (Q2R (variance_file_size_bytes2 st))
          /\ (stddev_file_size st * stddev_file_size st
              = Q2R (variance_file_size_bytes2 st))%R).
Proof.
  intros xs n.
  destruct (StatsAggregator_total files partitions snapshots history_entries)
    as (st & Hrun & _ & _ & _ & Hvar & Hsd & _).
  exists st. split; [exact Hrun|].
  unfold variance_file_size in Hvar. unfold stddev_of_file_size in Hsd.
  destruct (sizes_length files) as [Hlen _]. fold xs in Hlen.
  split.
  - intros Hle. apply Nat.leb_le in Hle. rewrite Hle in Hvar, Hsd.
    injection Hvar as ->. injection Hsd as ->. now split.
  - intros Hge.
    assert (Hgt : Nat.leb (length files) 1 = false) by (apply Nat.leb_gt; lia).
    rewrite Hgt in Hvar, Hsd.
    assert (Hpos : (0 < length xs)%nat) by lia.
    assert (Hn : ~ (n == 0)%Q).
    { intros E. pose proof (nat_to_Q_positive (length files) ltac:(lia)) as P.
      fold n in P. rewrite E in P. discriminate P. }
    fold xs in Hvar, Hsd.
    rewrite (population_variance_defined xs Hpos) in Hvar, Hsd.
    rewrite Hlen in Hvar, Hsd. fold n in Hvar, Hsd.
    injection Hvar as Hvar.
    set (m := (total xs / n)%Q) in *.
    assert (Hnonneg : (0 <= variance_file_size_bytes2 st)%Q).
    { rewrite Hvar. apply quotient_nonneg; [lia|apply total_of_squares_nonneg]. }
    cbn [and_then] in Hsd. rewrite <- Hvar in Hsd.
    rewrite (checked_sqrt_defined _ Hnonneg) in Hsd. injection Hsd as Hsd.
    exists m. split.
    { rewrite (mean_defined xs Hpos), Hlen. reflexivity. }
    split. { unfold m. field. exact Hn. }
    split. { rewrite Hvar. field. exact Hn. }
    split.
    { rewrite Hvar, (total_squared_deviations m xs), Hlen. fold n.
      unfold m. field. exact Hn. }
    split; [exact Hnonneg|]. split; [exact Hsd|].
    rewrite Hsd. apply sqrt_sqrt.
    pose proof (Qle_Rle _ _ Hnonneg) as HR.
    unfold Q2R at 1 in HR. cbn [Qnum Qden] in HR.
    now rewrite Rmult_0_l in HR.
Qed.

(** C4.  The variance and the standard deviation of the aggregation are
    population statistics over the records' own [size_in_bytes].  With [xs]
    the sizes in bytes of the records, in their order, and [n] their number:
    for two records or more there is a mean [m], with m.n the sum of [xs],
    such that the variance times n is the sum of the squares of x - m over
    [xs] -- the variance is the mean of the squared deviations, the divisor
    being n and not n - 1, so that n.n.variance = n.(sum of squares) -
    (square of the sum) -- and the standard deviation is the square root of
    that variance, not negative, its square the variance; for one record or
    none both are zero. *)
Theorem variance_is_population_variance (files : list FileRecord)
    (partitions snapshots history_entries : N) :
  let xs := map (fun f => inject_Z (Z.of_N (size_in_bytes f))) files in
  let n := inject_Z (Z.of_nat (length files)) in
  let sum := fold_right Qplus 0%Q in
  exists st,
    StatsAggregator files partitions snapshots history_entries = Some st
    /\ ((length files <= 1)%nat ->
        variance_file_size_bytes2 st = 0%Q /\ stddev_file_size st = 0%R)
    /\ ((2 <= length files)%nat ->
        exists m,
          (m * n == sum xs)%Q
          /\ (variance_file_size_bytes2 st * n
              == sum (map (fun x => (x - m) * (x - m)) xs))%Q
          /\ (n * (n * variance_file_size_bytes2 st)
              == n * sum (map (fun x => x * x) xs) - sum xs * sum xs)%Q
          /\ (0 <= variance_file_size_bytes2 st)%Q
          /\ stddev_file_size st = sqrt (Q2R (variance_file_size_bytes2 st))
          /\ (stddev_file_size st * stddev_file_size st
              = Q2R (variance_file_size_bytes2 st))%R
          /\ (0 <= stddev_file_size st)%R).
Proof.
  intros xs n sum.
  destruct (variance_and_stddev_run files partitions snapshots history_entries)
    as (st & Hrun & Hsmall & Hmany).
  exists st. split; [exact Hrun|]. split; [exact Hsmall|].
  intros Hge.
  destruct (Hmany Hge) as (m & _ & Hm & Hdev & Hid & Hnonneg & Hsd & Hsq).
  exists m. split; [exact Hm|]. split; [exact Hdev|]. split; [exact Hid|].
  split; [exact Hnonneg|]. split; [exact Hsd|]. split; [exact Hsq|].
  rewrite Hsd. apply sqrt_pos.
Qed.

Lemma variance_is_population_variance_witness :
  exists st,
    StatsAggregator two_files 1 2 2 = Some st
    /\ (variance_file_size_bytes2 st == 10995116277760000)%Q
    /\ stddev_file_size st = 104857600%R.
Proof.
  pose proof (variance_is_population_variance two_files 1 2 2) as H.
  cbv zeta in H. destruct H as (st & Hrun & _ & Hge).
  destruct (Hge (le_n 2)) as (m & _ & _ & Hid & _ & Hsd & _).
  exists st. split; [exact Hrun|].
  assert (Hv : (variance_file_size_bytes2 st == 10995116277760000)%Q).
  { change (inject_Z (Z.of_nat (length two_files))) with 2%Q in Hid.
    assert (E1 : (fold_right Qplus 0
                    (map (fun x => x * x)
                       (map (fun f => inject_Z (Z.of_N (size_in_bytes f)))
                          two_files))
                  == 109951162777600000)%Q) by (vm_compute; reflexivity).
    assert (E2 : (fold_right Qplus 0
                    (map (fun f => inject_Z (Z.of_N (size_in_bytes f)))
                       two_files)
                  == 419430400)%Q)
      by (vm_compute; reflexivity).
    rewrite E1, E2 in Hid. lra. }
  split; [exact Hv|].
  rewrite Hsd, (Qeq_eqR _ _ Hv).
  replace (Q2R 10995116277760000) with (104857600 * 104857600)%R
    by (unfold Q2R; cbn [Qnum Qden];
        rewrite Rinv_1, Rmult_1_r, <- mult_IZR; reflexivity).
  apply sqrt_square. apply (IZR_le 0). lia.
Defined.

Lemma small_file_count_is_the_count_witness :
  exists st,
    StatsAggregator three_files 2 4 4 = Some st
    /\ small_file_count st = 1%N
    /\ file_count st = 3%N
    /\ row_count st = 1000%N
    /\ avg_records_per_file st = 333%N
    /\ (avg_file_size_mb st == 150)%Q.
Proof.
  destruct (small_file_count_is_the_count three_files 2 4 4) as (st & Hrun & Hn & _).
  destruct (StatsAggregator_total three_files 2 4 4)
    as (st' & Hrun' & Hfiles & _ & Hrows & _ & _ & Havg & Hper).
  rewrite Hrun in Hrun'. injection Hrun' as <-.
  exists st. split; [exact Hrun|].
  split; [rewrite Hn; reflexivity|].
  split; [rewrite Hfiles; reflexivity|].
  split; [rewrite Hrows; reflexivity|].
  split.
  - assert (E : average_records_per_file three_files = Some 333%N)
      by (vm_compute; reflexivity).
    rewrite E in Hper. now injection Hper.
  - assert (E : exists a, average_file_size_mb three_files = Some a /\ (a == 150)%Q).
    { eexists. split; [vm_compute; reflexivity|]. vm_compute. reflexivity. }
    destruct E as (a & Ea & Ha). rewrite Ea in Havg. injection Havg as ->.
    exact Ha.
Defined.

(** *** TimelineProjector *)

Lemma insert_event_perm (e : SnapshotEvent) (l : list SnapshotEvent) :
  Permutation (insert_event e l) (e :: l).
Proof.
  induction l as [|x l IH]; cbn [insert_event]; [reflexivity|].
  destruct (Z.leb (committed_at e) (committed_at x)); [reflexivity|].
  rewrite IH. apply perm_swap.
Qed.

Lemma sort_perm (l : list SnapshotEvent) :
  Permutation (sort_by_committed_at l) l.
Proof.
  induction l as [|x l IH]; cbn [sort_by_committed_at fold_right]; [reflexivity|].
  fold (sort_by_committed_at l). rewrite insert_event_perm. now constructor.
Qed.

Lemma insert_event_sorted (e : SnapshotEvent) (l : list SnapshotEvent) :
  Sorted not_later l -> Sorted not_later (insert_event e l).
Proof.
  induction 1 as [|x l Hs IH Hhd]; cbn [insert_event].
  - repeat constructor.
  - destruct (Z.leb_spec (committed_at e) (committed_at x)) as [Hle|Hgt].
    + repeat constructor; assumption.
    + constructor; [exact IH|].
      destruct l as [|y l]; cbn [insert_event].
      * constructor. unfold not_later. lia.
      * destruct (Z.leb (committed_at e) (committed_at y)).
        -- constructor. unfold not_later. lia.
        -- constructor. now inversion Hhd.
Qed.

Lemma sort_sorted (l : list SnapshotEvent) :
  Sorted not_later (sort_by_committed_at l).
Proof.
  induction l as [|x l IH]; cbn [sort_by_committed_at fold_right].
  - constructor.
  - now apply insert_event_sorted.
Qed.

Lemma not_later_transitive : Relations_1.Transitive not_later.
Proof. intros a b c. unfold not_later. lia. Qed.

(** Inserting an event leaves the events of every instant in the order they
    had, the new one ahead of those already there. *)
Lemma insert_event_stable (t : Z) (e : SnapshotEvent) (l : list SnapshotEvent) :
  filter (committed_then t) (insert_event e l)
  = filter (committed_then t) (e :: l).
Proof.
  induction l as [|x l IH]; cbn [insert_event]; [reflexivity|].
  destruct (Z.leb_spec (committed_at e) (committed_at x)) as [Hle|Hgt];
    [reflexivity|].
  cbn [filter] in *. rewrite IH. unfold committed_then.
  destruct (Z.eqb_spec (committed_at x) t), (Z.eqb_spec (committed_at e) t);
    try reflexivity. lia.
Qed.

Lemma sort_stable (t : Z) (l : list SnapshotEvent) :
  filter (committed_then t) (sort_by_committed_at l)
  = filter (committed_then t) l.
Proof.
  induction l as [|x l IH]; [reflexivity|].
  cbn [sort_by_committed_at fold_right]. fold (sort_by_committed_at l).
  rewrite insert_event_stable. cbn [filter]. now rewrite IH.
Qed.

Lemma sort_of_sorted (l : list SnapshotEvent) :
  Sorted not_later l -> sort_by_committed_at l = l.
Proof.
  induction 1 as [|x l Hs IH Hhd]; [reflexivity|].
  cbn [sort_by_committed_at fold_right]. fold (sort_by_committed_at l).
  rewrite IH. destruct Hhd as [|y l Hxy]; [reflexivity|].
  cbn [insert_event]. unfold not_later in Hxy.
  destruct (Z.leb_spec (committed_at x) (committed_at y)); [reflexivity|lia].
Qed.

Lemma timeline_events (events : list SnapshotEvent) :
  map fst (TimelineProjector events) = sort_by_committed_at events.
Proof.
  unfold TimelineProjector. rewrite map_map. cbn [fst]. apply map_id.
Qed.

(** C6.  The projection holds the events it was given, each once, in
    ascending order of [committed_at]; the events committed at any one
    instant stand in the order they came in; every event is paired with its
    own operation; no events give an empty timeline, and projecting a
    projection changes nothing. *)
Theorem timeline_is_a_stable_sort (events : list SnapshotEvent) :
  Permutation (map fst (TimelineProjector events)) events
  /\ StronglySorted not_later (map fst (TimelineProjector events))
  /\ (forall t,
        filter (committed_then t) (map fst (TimelineProjector events))
        = filter (committed_then t) events)
  /\ Forall (fun p => snd p = operation (fst p)) (TimelineProjector events)
  /\ TimelineProjector (map fst (TimelineProjector events))
     = TimelineProjector events
  /\ TimelineProjector [] = [].
Proof.
  rewrite timeline_events.
  split; [apply sort_perm|].
  split; [apply Sorted_StronglySorted;
          [exact not_later_transitive|apply sort_sorted]|].
  split; [intros t; apply sort_stable|].
  split.
  - unfold TimelineProjector. apply Forall_forall. intros p Hp.
    apply in_map_iff in Hp as (e & <- & _). reflexivity.
  - split; [|reflexivity].
    unfold TimelineProjector. now rewrite (sort_of_sorted _ (sort_sorted events)).
Qed.

End ConnectionFacts.

(** ** The rest of [main] *)

Module AppExtras.
Import App AppReadings.

Section Log.

Variable Engine : Type.

Lemma quiet_ret {A : Type} (a : A) : quiet (@ret Engine A a).
Proof. intros w. reflexivity. Qed.

Lemma quiet_lift {A : Type} (r : result A) : quiet (@lift Engine A r).
Proof. intros w. reflexivity. Qed.

Lemma quiet_raise {A : Type} (e : exn) : quiet (@raise Engine A e).
Proof. intros w. reflexivity. Qed.

Lemma quiet_draw (c : Container) (x : Widget) : quiet (@draw Engine c x).
Proof. intros w. reflexivity. Qed.

Lemma quiet_cursor_execute (execute : Engine -> string -> Response * Engine)
    (sql : string) :
  quiet (cursor_execute execute sql).
Proof.
  intros w. unfold cursor_execute.
  destruct (execute (cursor w) sql) as [[rows|e] c]; reflexivity.
Qed.

Lemma quiet_bind {A B : Type} (m : M Engine A) (k : A -> M Engine B) :
  quiet m -> (forall a, quiet (k a)) -> quiet (bind m k).
Proof.
  intros Hm Hk w. unfold bind. specialize (Hm w).
  destruct (m w) as [[a|e] w1]; cbn [snd] in *; [|exact Hm].
  now rewrite Hk.
Qed.

Lemma quiet_try_except {A : Type} (m : M Engine A) (h : exn -> M Engine A) :
  quiet m -> (forall e, quiet (h e)) -> quiet (try_except m h).
Proof.
  intros Hm Hh w. unfold try_except. specialize (Hm w).
  destruct (m w) as [[a|e] w1]; cbn [snd] in *; [exact Hm|].
  now rewrite Hh.
Qed.

Lemma quiet_when (c : bool) (m : M Engine unit) : quiet m -> quiet (when c m).
Proof. intros H. destruct c; [exact H|apply quiet_ret]. Qed.

Lemma logs_of_quiet {A : Type} (m : M Engine A) : quiet m -> logs_of m [].
Proof.
  intros H w. exists [], []. rewrite H, app_nil_r. repeat split; auto.
Qed.

Lemma logs_of_call {A : Type} (name : string) (args : list value)
    (f : M Engine A) :
  logs_of (call name args f) [(name, args)].
Proof.
  intros w. exists [(name, args)], []. unfold call.
  destruct (f w) as [r w1]. repeat split; auto.
Qed.

Lemma logs_of_bind {A B : Type} (m : M Engine A) (k : A -> M Engine B)
    (c1 c2 : list (string * list value)) :
  logs_of m c1 -> (forall a, logs_of (k a) c2) -> logs_of (bind m k) (c1 ++ c2).
Proof.
  intros H1 H2 w. unfold bind.
  destruct (H1 w) as (d1 & r1 & Hc1 & Hs1 & Hok1).
  destruct (m w) as [[a|e] w1]; cbn [fst snd] in *.
  - rewrite (Hok1 a eq_refl), app_nil_r in Hs1. subst d1.
    destruct (H2 a w1) as (d2 & r2 & Hc2 & Hs2 & Hok2).
    exists (c1 ++ d2), r2. rewrite Hc2, Hc1, Hs2, <- !app_assoc.
    repeat split; auto.
  - exists d1, (r1 ++ c2). rewrite Hs1, <- app_assoc.
    repeat split; auto. discriminate.
Qed.

Lemma logs_of_logs (m : M Engine unit) (cs : list (string * list value)) :
  logs m cs -> logs_of m cs.
Proof.
  intros H w. destruct (H w) as (d & r & Hc & Hs & Hok).
  exists d, r. repeat split; auto. intros []. exact Hok.
Qed.

Lemma logs_of_when (c : bool) (m : M Engine unit)
    (cs : list (string * list value)) :
  logs_of m cs -> logs_of (when c m) (if c then cs else []).
Proof.
  intros H. destruct c; [exact H|]. apply logs_of_quiet, quiet_ret.
Qed.

Lemma bind_ok {A B : Type} (m : M Engine A) (k : A -> M Engine B)
    (w w' : World Engine) (b : B) :
  bind m k w = (Ok b, w') ->
  exists a w1, m w = (Ok a, w1) /\ k a w1 = (Ok b, w').
Proof.
  unfold bind. destruct (m w) as [[a|e] w1]; [eauto|discriminate].
Qed.

End Log.

Section Run.

Variable Engine : Type.
Variable execute : Engine -> string -> Response * Engine.
Variable Num : Type.
Variable format_thousands format_2f : Num -> result string.
Variable MaintenanceOutcome : Type.
Variable init_connection : M Engine unit.
Variable fetch_stats : value -> value -> M Engine (list (string * Num)).
Variable load_snapshot_history load_file_details : value -> value -> M Engine DataFrame.
Variable execute_alter_table : value -> value -> string -> M Engine MaintenanceOutcome.
Variable pressed : Button -> bool.
Variable picked_schema picked_table : nat.
Variable theme : option (list (string * value)).
Variable px_raises : Chart -> option exn.

Local Open Scope script_scope.

Local Abbreviation the_main :=
  (main Engine execute Num format_thousands format_2f MaintenanceOutcome
     init_connection fetch_stats load_snapshot_history load_file_details
     execute_alter_table pressed picked_schema picked_table theme px_raises).

Local Abbreviation the_page :=
  (table_page Engine execute Num format_thousands format_2f fetch_stats
     load_snapshot_history load_file_details theme px_raises).

Local Abbreviation the_overview :=
  (table_overview Engine Num format_thousands format_2f fetch_stats theme).

Local Abbreviation the_snapshots :=
  (snapshot_timeline Engine load_snapshot_history px_raises).

Local Abbreviation the_files :=
  (file_size_distribution Engine load_file_details px_raises).

Local Abbreviation the_actions :=
  (table_actions Engine execute MaintenanceOutcome execute_alter_table pressed).

Local Abbreviation reach_the_buttons :=
  (draw Page (Title "📊 Iceberg Metadata Insights");;
   call "init_connection" [] init_connection;;
   select_table Engine execute picked_schema picked_table).

Lemma quiet_px (c : Chart) : quiet (px Engine px_raises c).
Proof.
  unfold px. destruct (px_raises c); [apply quiet_raise|apply quiet_ret].
Qed.

Ltac quiet_steps :=
  repeat first
    [ apply quiet_draw | apply quiet_ret | apply quiet_lift | apply quiet_raise
    | apply quiet_px
    | apply quiet_cursor_execute
    | apply quiet_when
    | apply quiet_try_except; [|intros ?]
    | apply quiet_bind; [|intros ?] ].

Lemma quiet_select_table :
  quiet (select_table Engine execute picked_schema picked_table).
Proof. unfold select_table. quiet_steps. Qed.

Lemma quiet_analyze_action (schema table : value) :
  quiet (analyze_action Engine execute pressed schema table).
Proof. unfold analyze_action. quiet_steps. Qed.

Lemma quiet_metric (stats : list (string * Num)) (label key : string)
    (fmt : Num -> result string) :
  quiet (metric Engine Num stats label key fmt).
Proof. unfold metric. quiet_steps. Qed.

Lemma quiet_metadata_tabs (schema table : value) :
  quiet (metadata_tabs Engine execute schema table).
Proof.
  intros w. rewrite AppFacts.metadata_tabs_run_tabs, AppFacts.run_tabs_trace.
  reflexivity.
Qed.

(** Lines 117-123, once the base of the theme is read. *)
Lemma style_metric_cards_run :
  match theme with
  | None =>
      raise (Exn AttributeError "'NoneType' object has no attribute 'get'")
  | Some d =>
      match dict_get_or_none d "base" with
      | VStr "dark" => draw Page (MetricCards (Some ("#1B1C24", "#292D34")))
      | _ => draw Page (MetricCards None)
      end
  end
  = match theme with
    | None => @raise Engine unit no_get
    | Some d => draw Page (MetricCards (card_colors (dict_get_or_none d "base")))
    end.
Proof.
  destruct theme as [d|]; [|reflexivity].
  unfold card_colors. destruct (dict_get_or_none d "base") as [s| |];
    try reflexivity.
  repeat match goal with
  | |- context [match ?x with _ => _ end] => destruct x; try reflexivity
  end.
Qed.

Lemma table_overview_logs (schema table : value) :
  logs_of (the_overview schema table) [("fetch_stats", [schema; table])].
Proof.
  unfold table_overview. rewrite style_metric_cards_run.
  apply (logs_of_bind Engine _ _ [] [("fetch_stats", [schema; table])]);
    [apply logs_of_quiet, quiet_draw|intros _].
  apply (logs_of_bind Engine _ _ [("fetch_stats", [schema; table])] []);
    [apply logs_of_call|intros stats].
  apply logs_of_quiet.
  repeat first [ apply quiet_metric | apply quiet_draw
               | apply quiet_bind; [|intros ?] ].
  destruct theme; [apply quiet_draw|apply quiet_raise].
Qed.

Lemma snapshot_timeline_logs (schema table : value) :
  logs_of (the_snapshots schema table)
    [("load_snapshot_history", [schema; table])].
Proof.
  unfold snapshot_timeline.
  apply (logs_of_bind Engine _ _ [("load_snapshot_history", [schema; table])] []);
    [apply logs_of_call|intros df].
  apply logs_of_quiet. apply quiet_bind; [apply quiet_draw|intros _].
  destruct (negb (empty df)); quiet_steps.
Qed.

Lemma file_size_distribution_logs (schema table : value) :
  logs_of (the_files schema table)
    [("load_file_details", [schema; table])].
Proof.
  unfold file_size_distribution.
  apply (logs_of_bind Engine _ _ [("load_file_details", [schema; table])] []);
    [apply logs_of_call|intros df].
  apply logs_of_quiet. apply quiet_bind; [apply quiet_draw|intros _].
  destruct (negb (empty df)); quiet_steps.
Qed.

Lemma table_page_logs (schema table : value) :
  logs_of (the_page schema table) (loader_calls schema table).
Proof.
  unfold table_page, loader_calls.
  apply (logs_of_bind Engine _ _ [("fetch_stats", [schema; table])]
           [("load_snapshot_history", [schema; table]);
            ("load_file_details", [schema; table])]);
    [apply table_overview_logs|intros _].
  apply (logs_of_bind Engine _ _ [("load_snapshot_history", [schema; table])]
           [("load_file_details", [schema; table])]);
    [apply snapshot_timeline_logs|intros _].
  apply (logs_of_bind Engine _ _ [("load_file_details", [schema; table])] []);
    [apply file_size_distribution_logs|intros _].
  apply logs_of_quiet. apply quiet_bind; [apply quiet_draw|intros _].
  apply quiet_metadata_tabs.
Qed.

Lemma table_actions_logs (schema table : value) :
  logs_of (the_actions schema table)
    (Section6.requests "128MB" "7d" "7d" pressed schema table).
Proof.
  unfold table_actions.
  apply (logs_of_bind Engine _ _ [] _); [apply logs_of_quiet, quiet_draw|intros _].
  apply (logs_of_bind Engine _ _ [] _); [apply logs_of_quiet, quiet_draw|intros _].
  apply (logs_of_bind Engine _ _ [] _);
    [apply logs_of_quiet, quiet_analyze_action|intros _].
  apply logs_of_logs, AppFacts.maintenance_actions_log.
Qed.

(** X1.  A run of [main] that returns has called [init_connection] once,
    then [execute_alter_table] once for each maintenance button that is
    down, in the order of the buttons, then -- only if a table is selected --
    [fetch_stats], [load_snapshot_history] and [load_file_details], once
    each and in that order, all for the schema and table selected. *)
Theorem main_call_log (w w1 w' : World Engine) (schema table : value) :
  reach_the_buttons w = (Ok (schema, table), w1) ->
  the_main w = (Ok tt, w') ->
  called w' =
  called w ++ ("init_connection", [])
    :: Section6.requests "128MB" "7d" "7d" pressed schema table
    ++ (if truthy table then loader_calls schema table else []).
Proof.
  intros Hreach Hmain.
  assert (Hlog : called w1 = called w ++ [("init_connection", [])]).
  { apply bind_ok in Hreach as ([] & w0 & Hdraw & Hreach).
    apply bind_ok in Hreach as ([] & w2 & Hcall & Hsel).
    pose proof (quiet_select_table w2) as Hq. rewrite Hsel in Hq. cbn [snd] in Hq.
    destruct (logs_of_call Engine "init_connection" [] init_connection w0)
      as (d & r & Hc & Hs & Hok).
    rewrite Hcall in Hc, Hok. cbn [fst snd] in Hc, Hok.
    rewrite (Hok tt eq_refl), app_nil_r in Hs. subst d.
    injection Hdraw as <-. cbn [called] in Hc. now rewrite Hq, Hc. }
  assert (Hrest : bind (the_actions schema table)
                    (fun _ => when (truthy table) (the_page schema table)) w1
                  = (Ok tt, w')).
  { revert Hmain. unfold main. unfold bind at 1 2 3.
    unfold bind at 1 2 in Hreach.
    destruct (draw Page (Title "📊 Iceberg Metadata Insights") w) as [[[]|e0] w0];
      [|discriminate].
    destruct (call "init_connection" [] init_connection w0) as [[[]|e1] w2];
      [|discriminate].
    rewrite Hreach. auto. }
  destruct (logs_of_bind Engine _ _ _ _ (table_actions_logs schema table)
              (fun _ => logs_of_when Engine (truthy table) _ _
                          (table_page_logs schema table)) w1)
    as (d & r & Hc & Hs & Hok).
  rewrite Hrest in Hc, Hok. cbn [fst snd] in Hc, Hok.
  rewrite (Hok tt eq_refl), app_nil_r in Hs. subst d.
  rewrite Hc, Hlog, <- app_assoc. reflexivity.
Qed.

(** *** The select boxes *)

Lemma selectbox_picks (options : list value) (pick : nat) :
  (options = [] /\ selectbox options pick = VNone)
  \/ In (selectbox options pick) options.
Proof.
  destruct options as [|first rest]; [left; split; reflexivity|right].
  unfold selectbox.
  destruct (nth_in_or_default pick (first :: rest) first) as [H| ->];
    [exact H|now left].
Qed.

Lemma first_column_heads (rows : list row) (cells : list value) :
  first_column rows = Ok cells -> map (@hd_error value) rows = map Some cells.
Proof.
  revert cells. induction rows as [|r rows IH]; intros cells H.
  - injection H as <-. reflexivity.
  - cbn [first_column] in H. unfold index in H.
    destruct r as [|c r]; cbn [nth_error] in H; [discriminate|].
    destruct (first_column rows) as [cs|e]; [|discriminate].
    injection H as <-. cbn [map hd_error]. now rewrite (IH cs eq_refl).
Qed.

(** X2.  When the engine answers both listings, the sidebar sends exactly
    two statements, the second for the schema picked from the first one's
    answer; it returns a schema that is one of the first cells the engine
    listed (or None when it listed none) and a table that is one of those
    listed for that schema (or None), and draws only its header. *)
Theorem select_table_picks_from_the_listing (w : World Engine)
    (rows1 rows2 : list row) (c1 c2 : Engine) (schemas tables : list value) :
  execute (cursor w) schemas_query = (Rows rows1, c1) ->
  first_column rows1 = Ok schemas ->
  execute c1 (tables_query (selectbox schemas picked_schema)) = (Rows rows2, c2) ->
  first_column rows2 = Ok tables ->
  select_table Engine execute picked_schema picked_table w
  = (Ok (selectbox schemas picked_schema, selectbox tables picked_table),
     mkWorld c2
       (issued w ++ [schemas_query;
                     tables_query (selectbox schemas picked_schema)])
       (screen w ++ [(Sidebar, Header "🔍 Select Table")])
       (called w))
  /\ map (@hd_error value) rows1 = map Some schemas
  /\ map (@hd_error value) rows2 = map Some tables
  /\ ((schemas = [] /\ selectbox schemas picked_schema = VNone)
      \/ In (selectbox schemas picked_schema) schemas)
  /\ ((tables = [] /\ selectbox tables picked_table = VNone)
      \/ In (selectbox tables picked_table) tables).
Proof.
  intros H1 Hs H2 Ht. split.
  - unfold select_table, bind, draw, cursor_execute, lift, ret.
    cbn [cursor issued screen called]. rewrite H1. cbn [cursor issued screen called].
    rewrite Hs. cbv zeta. rewrite H2. cbn [cursor issued screen called].
    rewrite Ht. now rewrite <- app_assoc.
  - repeat split; auto using first_column_heads, selectbox_picks.
Qed.

(** X3.  An engine error on the listing of schemas is not handled: [main]
    ends with that exception raised, after the one statement, with the
    sidebar header the last thing drawn. *)
Theorem listing_error_escapes_main (w w0 : World Engine) (e : exn) (c' : Engine) :
  (draw Page (Title "📊 Iceberg Metadata Insights");;
   call "init_connection" [] init_connection) w = (Ok tt, w0) ->
  execute (cursor w0) schemas_query = (Fails e, c') ->
  the_main w =
  (Raise e,
   mkWorld c' (issued w0 ++ [schemas_query])
     (screen w0 ++ [(Sidebar, Header "🔍 Select Table")]) (called w0)).
Proof.
  intros Hstart He. unfold main. unfold bind at 1 2.
  unfold bind at 1 in Hstart.
  destruct (draw Page (Title "📊 Iceberg Metadata Insights") w) as [[[]|e0] w1];
    [|discriminate].
  rewrite Hstart.
  unfold bind at 1. unfold select_table, bind, draw, cursor_execute.
  cbn [cursor issued screen called]. now rewrite He.
Qed.

(** *** No table, no button *)

Lemma bind_ret_tt (m : M Engine unit) (w : World Engine) :
  bind m (fun _ => ret tt) w = m w.
Proof. unfold bind, ret. now destruct (m w) as [[[]|e] w1]. Qed.

(** X4.  When the selected table is None or the empty text, [main] is its
    sidebar and nothing more: it ends as the buttons end, and neither the
    overview, nor the charts, nor any tab is run. *)
Theorem no_table_no_page (w w1 : World Engine) (schema table : value) :
  reach_the_buttons w = (Ok (schema, table), w1) ->
  truthy table = false ->
  the_main w = the_actions schema table w1.
Proof.
  intros Hreach Hno. unfold main. unfold bind at 1 2 3.
  unfold bind at 1 2 in Hreach.
  destruct (draw Page (Title "📊 Iceberg Metadata Insights") w) as [[[]|e0] w0];
    [|discriminate].
  destruct (call "init_connection" [] init_connection w0) as [[[]|e1] w2];
    [|discriminate].
  rewrite Hreach, Hno. apply bind_ret_tt.
Qed.

(** X5.  The buttons do not wait for a table: when the engine lists no table
    the selection is None, and the Analyze button, if down, sends
    [ANALYZE schema.None]. *)
Theorem analyze_acts_without_a_table (schema : value) (w : World Engine) :
  pressed AnalyzeTable = true ->
  issued (snd (analyze_action Engine execute pressed schema
                 (selectbox [] picked_table) w))
  = issued w ++ ["ANALYZE " ++ str schema ++ ".None"]%string.
Proof.
  intros Hp. unfold analyze_action, when. rewrite Hp.
  unfold bind, draw, cursor_execute. cbn [cursor issued screen called selectbox].
  unfold analyze_statement. cbn [str].
  destruct (execute (cursor w) _) as [[rows|e] c]; reflexivity.
Qed.

(** X6.  With no button down the action section of the sidebar sends
    nothing to the engine and calls nothing: it draws its divider and its
    header and returns. *)
Theorem idle_sidebar_touches_nothing (schema table : value) (w : World Engine) :
  (forall b, pressed b = false) ->
  the_actions schema table w =
  (Ok tt,
   mkWorld (cursor w) (issued w)
     (screen w ++ [(Sidebar, Divider); (Sidebar, Header "⚙️ Table Actions")])
     (called w)).
Proof.
  intros Hidle.
  unfold table_actions, analyze_action, maintenance_actions, maintenance_button.
  rewrite !Hidle. unfold when, bind, draw, ret.
  cbn [cursor issued screen called]. now rewrite <- app_assoc.
Qed.

(** *** The overview *)

Lemma dict_get_missing {V : Type} (d : list (string * V)) (key : string) (e : exn) :
  dict_get d key = Raise e -> e = Exn KeyError ("'" ++ key ++ "'").
Proof.
  induction d as [|[k v] d IH]; cbn [dict_get].
  - now intros [= <-].
  - destruct (String.eqb k key); [discriminate|exact IH].
Qed.

Lemma metric_run (stats : list (string * Num)) (m : string * string * bool)
    (w : World Engine) :
  metric Engine Num stats (metric_label m) (metric_key m)
    (metric_format Num format_thousands format_2f m) w =
  match metric_text Num format_thousands format_2f stats m with
  | Ok text =>
      (Ok tt,
       mkWorld (cursor w) (issued w)
         (screen w ++ [(Page, Metric (metric_label m) text)]) (called w))
  | Raise e => (Raise e, w)
  end.
Proof.
  unfold metric, metric_text, bind, lift, draw.
  destruct (dict_get stats (metric_key m)) as [x|e]; [|reflexivity].
  destruct (metric_format Num format_thousands format_2f m x); reflexivity.
Qed.

Lemma first_failure_app (stats : list (string * Num))
    (a b : list (string * string * bool)) :
  first_failure Num format_thousands format_2f stats (a ++ b) =
  match first_failure Num format_thousands format_2f stats a with
  | Some e => Some e
  | None => first_failure Num format_thousands format_2f stats b
  end.
Proof.
  induction a as [|m a IH]; [reflexivity|]. cbn [app first_failure].
  destruct (metric_text Num format_thousands format_2f stats m);
    [exact IH|reflexivity].
Qed.

(** A key that is missing fails the row, at that key or before it. *)
Lemma first_missing_fails (stats : list (string * Num))
    (ms : list (string * string * bool)) (key : string) :
  first_missing stats (map metric_key ms) = Some key ->
  exists e, first_failure Num format_thousands format_2f stats ms = Some e.
Proof.
  induction ms as [|m ms IH]; [discriminate|].
  cbn [map first_missing first_failure]. unfold metric_text.
  destruct (dict_get stats (metric_key m)) as [x|e]; [|now exists e].
  destruct (metric_format Num format_thousands format_2f m x) as [text|e];
    [exact IH|now exists e].
Qed.

(** When no value is refused by its format, the first failure is the
    KeyError of the first missing key. *)
Lemma first_failure_is_the_missing_key (stats : list (string * Num))
    (ms : list (string * string * bool)) :
  (forall m x e, In m ms ->
     metric_format Num format_thousands format_2f m x <> Raise e) ->
  first_failure Num format_thousands format_2f stats ms =
  option_map (fun key => Exn KeyError ("'" ++ key ++ "'"))
    (first_missing stats (map metric_key ms)).
Proof.
  induction ms as [|m ms IH]; intros Hfmt; [reflexivity|].
  cbn [map first_missing first_failure]. unfold metric_text.
  destruct (dict_get stats (metric_key m)) as [x|e] eqn:E.
  - destruct (metric_format Num format_thousands format_2f m x) as [text|e] eqn:F.
    + apply IH. intros m' x' e' Hin. apply Hfmt. now right.
    + exfalso. apply (Hfmt m x e); [now left|exact F].
  - cbn [option_map]. now rewrite (dict_get_missing _ _ _ E).
Qed.

Lemma metrics_then_raises (stats : list (string * Num))
    (ms : list (string * string * bool)) (k : M Engine unit)
    (w : World Engine) (e : exn) :
  first_failure Num format_thousands format_2f stats ms = Some e ->
  fst (metrics_then Num format_thousands format_2f stats ms k w) = Raise e.
Proof.
  revert w. induction ms as [|m ms IH]; intros w; [discriminate|].
  cbn [first_failure metrics_then fold_right].
  unfold bind at 1. rewrite metric_run.
  destruct (metric_text Num format_thousands format_2f stats m) as [text|e'].
  - intros H. exact (IH _ H).
  - now intros [= <-].
Qed.

Lemma metrics_then_returns (stats : list (string * Num))
    (ms : list (string * string * bool)) (k : M Engine unit)
    (w : World Engine) :
  first_failure Num format_thousands format_2f stats ms = None ->
  metrics_then Num format_thousands format_2f stats ms k w
  = k (mkWorld (cursor w) (issued w)
         (screen w ++ flat_map (shown Num format_thousands format_2f stats) ms)
         (called w)).
Proof.
  revert w. induction ms as [|m ms IH]; intros w.
  - intros _. cbn [metrics_then fold_right flat_map]. rewrite app_nil_r.
    now destruct w.
  - cbn [first_failure metrics_then fold_right flat_map].
    unfold bind at 1. rewrite metric_run. unfold shown at 1.
    destruct (metric_text Num format_thousands format_2f stats m) as [text|e];
      [|discriminate].
    intros H. fold (metrics_then Num format_thousands format_2f stats ms k).
    rewrite (IH _ H). cbn [cursor issued screen called].
    now rewrite <- app_assoc.
Qed.

(** The overview, once [fetch_stats] has returned the dict. *)
Lemma table_overview_run (schema table : value) (w w1 : World Engine)
    (stats : list (string * Num)) :
  fetch_stats schema table
    (mkWorld (cursor w) (issued w)
       (screen w ++ [(Page, Header ("📋 " ++ str schema ++ "." ++ str table))])
       (called w))
  = (Ok stats, w1) ->
  the_overview schema table w =
  metrics_then Num format_thousands format_2f stats row1
    (bind (draw Page (Subheader "📏 File Size Metrics"))
       (fun _ =>
          metrics_then Num format_thousands format_2f stats row2
            match theme with
            | None => raise no_get
            | Some d =>
                draw Page (MetricCards (card_colors (dict_get_or_none d "base")))
            end))
    (mkWorld (cursor w1) (issued w1)
       (screen w1 ++ [(Page, Subheader "📌 Table Overview")])
       (called w ++ [("fetch_stats", [schema; table])])).
Proof.
  intros Hfetch.
  unfold table_overview. rewrite style_metric_cards_run.
  unfold bind at 1 2. unfold draw at 1, call.
  cbn [cursor issued screen called]. rewrite Hfetch.
  unfold bind at 1. unfold draw at 1. cbn [cursor issued screen called].
  reflexivity.
Qed.

(** X7.  Once [fetch_stats] has returned a dict, the overview makes the
    twelve metrics in their order, each from its own entry: the value is
    looked up, then formatted, then drawn.  The first entry whose key the
    dict lacks or whose value its format refuses ends the overview with that
    exception; so a missing key always ends it, and with the KeyError of the
    first missing key -- whose text is the key between single quotes -- when
    no format refuses a value.  With all twelve drawn, the theme is read: a
    theme that is None ends the overview with the AttributeError of
    [None.get], after the metrics and without the cards being styled;
    otherwise the cards are styled, in the dark colours exactly when the
    theme's base is the text dark, and the overview returns. *)
Theorem overview_needs_every_key (schema table : value) (w w1 : World Engine)
    (stats : list (string * Num)) :
  let metrics :=
    (Page, Subheader "📌 Table Overview")
    :: flat_map (shown Num format_thousands format_2f stats) row1
    ++ (Page, Subheader "📏 File Size Metrics")
    :: flat_map (shown Num format_thousands format_2f stats) row2 in
  let after (drawn : list (Container * Widget)) :=
    mkWorld (cursor w1) (issued w1) (screen w1 ++ drawn)
      (called w ++ [("fetch_stats", [schema; table])]) in
  fetch_stats schema table
    (mkWorld (cursor w) (issued w)
       (screen w ++ [(Page, Header ("📋 " ++ str schema ++ "." ++ str table))])
       (called w))
  = (Ok stats, w1) ->
  match first_failure Num format_thousands format_2f stats (row1 ++ row2) with
  | Some e => fst (the_overview schema table w) = Raise e
  | None =>
      the_overview schema table w =
      match theme with
      | None => (Raise no_get, after metrics)
      | Some d =>
          (Ok tt,
           after (metrics
                  ++ [(Page, MetricCards
                               (card_colors (dict_get_or_none d "base")))]))
      end
  end
  /\ (forall key,
        first_missing stats (map metric_key (row1 ++ row2)) = Some key ->
        (exists e, fst (the_overview schema table w) = Raise e)
        /\ ((forall m x e, In m (row1 ++ row2) ->
               metric_format Num format_thousands format_2f m x <> Raise e) ->
            fst (the_overview schema table w)
            = Raise (Exn KeyError ("'" ++ key ++ "'")))).
Proof.
  intros metrics after Hfetch.
  assert (Hfirst :
    match first_failure Num format_thousands format_2f stats (row1 ++ row2) with
    | Some e => fst (the_overview schema table w) = Raise e
    | None =>
        the_overview schema table w =
        match theme with
        | None => (Raise no_get, after metrics)
        | Some d =>
            (Ok tt,
             after (metrics
                    ++ [(Page, MetricCards
                                 (card_colors (dict_get_or_none d "base")))]))
        end
    end).
  { rewrite (table_overview_run _ _ _ _ _ Hfetch), first_failure_app.
    destruct (first_failure Num format_thousands format_2f stats row1)
      as [e|] eqn:E1.
    - now apply metrics_then_raises.
    - rewrite (metrics_then_returns _ _ _ _ E1).
      destruct (first_failure Num format_thousands format_2f stats row2)
        as [e|] eqn:E2;
        unfold bind at 1; unfold draw at 1; cbn [cursor issued screen called].
      + now apply metrics_then_raises.
      + rewrite (metrics_then_returns _ _ _ _ E2).
        unfold after, metrics. destruct theme as [d|];
          unfold draw, raise; cbn [cursor issued screen called];
          repeat (rewrite <- app_assoc || rewrite <- app_comm_cons);
          reflexivity. }
  split; [exact Hfirst|].
  intros key Hkey. split.
  - destruct (first_missing_fails _ _ _ Hkey) as [e He].
    rewrite He in Hfirst. now exists e.
  - intros Hfmt.
    rewrite (first_failure_is_the_missing_key _ _ Hfmt), Hkey in Hfirst.
    exact Hfirst.
Qed.

(** X8.  Nothing stands between [fetch_stats] and the page: when it raises,
    the page raises the same exception, with only the page header drawn by
    [main] and no statement of the tabs sent. *)
Theorem fetch_stats_error_ends_the_page (schema table : value)
    (w w1 : World Engine) (e : exn) :
  fetch_stats schema table
    (mkWorld (cursor w) (issued w)
       (screen w ++ [(Page, Header ("📋 " ++ str schema ++ "." ++ str table))])
       (called w))
  = (Raise e, w1) ->
  the_page schema table w =
  (Raise e,
   mkWorld (cursor w1) (issued w1) (screen w1)
     (called w ++ [("fetch_stats", [schema; table])])).
Proof.
  intros Hfetch. unfold table_page, table_overview.
  unfold bind at 1 2 3. unfold draw at 1, call.
  cbn [cursor issued screen called]. now rewrite Hfetch.
Qed.

(** *** The two charts *)

(** X9.  The snapshot section calls its loader first and draws its
    subheader.  A history that is empty -- no row, or no column -- then gets
    the notice and nothing else, and plotly is not asked for a chart.  Any
    other history is handed to [px.scatter], commit time across, operation up
    and as colour: an exception plotly raises on it ends the section with
    that exception, nothing drawn under the subheader and no handler in the
    way; otherwise the chart is the next thing drawn, then the expander. *)
Theorem snapshot_section_chart_or_notice (schema table : value)
    (w w1 : World Engine) (history : DataFrame) :
  let chart :=
    Scatter history "Committed At" "Operation" "Operation"
      ["Snapshot ID"; "Parent ID"; "Summary"] "Snapshot Timeline" in
  let under_the_subheader (drawn : list (Container * Widget)) :=
    mkWorld (cursor w1) (issued w1)
      (screen w1 ++ (Page, Subheader "⏳ Snapshot Timeline") :: drawn)
      (called w ++ [("load_snapshot_history", [schema; table])]) in
  load_snapshot_history schema table w = (Ok history, w1) ->
  if empty history
  then the_snapshots schema table w
       = (Ok tt,
          under_the_subheader [(Page, Info "No snapshot history available.")])
  else match px_raises chart with
       | Some e =>
           the_snapshots schema table w = (Raise e, under_the_subheader [])
       | None =>
           exists rest,
             snd (the_snapshots schema table w)
             = under_the_subheader
                 ((Page, PlotlyChart chart)
                  :: (Page, Expander "Snapshot Details") :: rest)
       end.
Proof.
  intros chart under_the_subheader Hload.
  unfold snapshot_timeline, bind, call, draw, px. rewrite Hload.
  fold chart. unfold under_the_subheader.
  destruct (empty history); cbn [negb cursor issued screen called].
  - now rewrite <- !app_assoc.
  - destruct (px_raises chart) as [e|]; unfold raise, ret;
      cbn [snd cursor issued screen called].
    + reflexivity.
    + eexists. now rewrite <- !app_assoc.
Qed.

(** X10.  The file section does the same with its own loader: the notice for
    an empty frame of files; otherwise the frame goes to [px.histogram] for
    its column Size in 50 bins, and either plotly's exception ends the
    section or the histogram is drawn next, then the expander. *)
Theorem file_section_chart_or_notice (schema table : value)
    (w w1 : World Engine) (details : DataFrame) :
  let chart := Histogram details "Size" "File Size Distribution (bytes)" 50 in
  let under_the_subheader (drawn : list (Container * Widget)) :=
    mkWorld (cursor w1) (issued w1)
      (screen w1 ++ (Page, Subheader "📂 File Size Distribution") :: drawn)
      (called w ++ [("load_file_details", [schema; table])]) in
  load_file_details schema table w = (Ok details, w1) ->
  if empty details
  then the_files schema table w
       = (Ok tt, under_the_subheader [(Page, Info "No file details available.")])
  else match px_raises chart with
       | Some e => the_files schema table w = (Raise e, under_the_subheader [])
       | None =>
           exists rest,
             snd (the_files schema table w)
             = under_the_subheader
                 ((Page, PlotlyChart chart)
                  :: (Page, Expander "Detailed File Information") :: rest)
       end.
Proof.
  intros chart under_the_subheader Hload.
  unfold file_size_distribution, bind, call, draw, px. rewrite Hload.
  fold chart. unfold under_the_subheader.
  destruct (empty details); cbn [negb cursor issued screen called].
  - now rewrite <- !app_assoc.
  - destruct (px_raises chart) as [e|]; unfold raise, ret;
      cbn [snd cursor issued screen called].
    + reflexivity.
    + eexists. now rewrite <- !app_assoc.
Qed.

(** *** The tabs, by the rows they get *)

(** X11.  The DDL tab shows the first cell of the first row the engine
    returned and ignores the rest; a result with no row, or whose first row
    is empty, is reported in the tab as an index error under the text
    "Error loading references".  Either way the tab returns. *)
Theorem ddl_tab_shows_the_first_cell (schema table : value) (w : World Engine)
    (rows : list row) (c' : Engine) :
  execute (cursor w) (ddl_query schema table) = (Rows rows, c') ->
  ddl_tab Engine execute schema table w =
  (Ok tt,
   mkWorld c' (issued w ++ [ddl_query schema table])
     (screen w
      ++ [(Tab 0,
           match rows with
           | (ddl :: _) :: _ => Code ddl "sql"
           | _ => Error "Error loading references: list index out of range"
           end)])
     (called w)).
Proof.
  intros He. unfold ddl_tab, try_except, bind, cursor_execute, lift, draw.
  rewrite He. cbn [cursor issued screen called].
  destruct rows as [|[|ddl r] rows]; reflexivity.
Qed.

(** X12.  What a view's tab makes of the rows it gets.  No row at all gives
    the empty frame under the tab's list of columns.  Rows whose width is not
    the length of that list never reach [st.dataframe]: pandas refuses them,
    and the tab reports it in pandas' words, with the two counts, under the
    tab's own error text.  In both cases the tab returns, its one statement
    sent and nothing else drawn. *)
Theorem view_tab_frame_or_shape_error (v : View) (schema table : value)
    (w : World Engine) (rows : list row) (c' : Engine) :
  let shows (x : Widget) :=
    view_tab Engine execute v schema table w =
    (Ok tt,
     mkWorld c' (issued w ++ [view_query v schema table])
       (screen w ++ [(Tab (tab_index v), x)]) (called w)) in
  execute (cursor w) (view_query v schema table) = (Rows rows, c') ->
  (rows = [] -> shows (Dataframe (mkDataFrame (columns v) [])))
  /\ (rows <> [] ->
      data_width rows <> length (columns v) ->
      shows (Error (error_label v ++ ": "
                    ++ NilZero.string_of_uint (Nat.to_uint (length (columns v)))
                    ++ " columns passed, passed data had "
                    ++ NilZero.string_of_uint (Nat.to_uint (data_width rows))
                    ++ " columns"))).
Proof.
  intros shows He. unfold shows.
  unfold view_tab, try_except, bind, cursor_execute, lift, draw.
  rewrite He. cbn [cursor issued screen called]. split.
  - intros ->. reflexivity.
  - intros Hrows Hwidth. unfold Pandas.mk.
    destruct rows as [|r rows]; [contradiction|].
    destruct (Nat.eqb_spec (data_width (r :: rows)) (length (columns v)))
      as [Heq|_]; [contradiction|reflexivity].
Qed.

Lemma answers_length (c : Engine) (qs : list string) :
  length (answers Engine execute c qs) = length qs.
Proof.
  revert c. induction qs as [|q qs IH]; intros c; [reflexivity|].
  cbn [answers length]. now rewrite IH.
Qed.

(** X13.  The tabs cannot fail the page: once the overview, the snapshot
    section and the file section have returned, the page returns, whatever
    the engine answers to the twelve statements of the tabs, and those
    twelve are the only statements the page itself sends after them. *)
Theorem page_returns_once_past_the_charts (schema table : value)
    (w w1 : World Engine) :
  (the_overview schema table;;
   the_snapshots schema table;;
   the_files schema table) w
  = (Ok tt, w1) ->
  exists w',
    the_page schema table w = (Ok tt, w')
    /\ issued w' = issued w1 ++ map (fun t => tab_query t schema table) all_tabs
    /\ called w' = called w1
    /\ length (screen w') = length (screen w1) + 13.
Proof.
  intros H.
  apply bind_ok in H as ([] & wa & Ha & H).
  apply bind_ok in H as ([] & wb & Hb & Hc).
  unfold table_page. unfold bind at 1 2 3 4. rewrite Ha, Hb, Hc.
  cbn [draw cursor issued screen called].
  rewrite AppFacts.metadata_tabs_run_tabs, AppFacts.run_tabs_trace.
  eexists. split; [reflexivity|].
  cbn [cursor issued screen called]. repeat split.
  rewrite !length_app. unfold tabs_drawn.
  rewrite length_map, length_combine, answers_length, length_map.
  cbn [length all_tabs all_views map]. lia.
Qed.

End Run.

Lemma page_returns_once_past_the_charts_witness :
  fst (table_page nat (scripted [] refused) nat
         (fun _ => Ok "7") (fun _ => Ok "7.00")
         (fun _ _ => ret every_key) (fun _ _ => ret one_snapshot)
         (fun _ _ => ret (mkDataFrame ["Size"] []))
         light px_accepts (VStr "db") (VStr "t") fresh)
  = Ok tt.
Proof.
  destruct (page_returns_once_past_the_charts nat (scripted [] refused) nat
              (fun _ => Ok "7") (fun _ => Ok "7.00")
              (fun _ _ => ret every_key) (fun _ _ => ret one_snapshot)
              (fun _ _ => ret (mkDataFrame ["Size"] []))
              light px_accepts (VStr "db") (VStr "t") fresh _
              (surjective_pairing _))
    as (w' & Hrun & _).
  now rewrite Hrun.
Defined.

Lemma select_table_picks_from_the_listing_witness :
  fst (select_table nat (scripted one_table refused) 0 0 fresh)
  = Ok (VStr "db", VStr "t").
Proof.
  rewrite (proj1 (select_table_picks_from_the_listing nat
                    (scripted one_table refused) 0 0 fresh
                    [[VStr "db"]] [[VStr "t"]] 1 2 [VStr "db"] [VStr "t"]
                    eq_refl eq_refl eq_refl eq_refl)).
  reflexivity.
Defined.

Lemma listing_error_escapes_main_witness :
  run_main [] every_key (only AnalyzeTable) fresh
  = (Raise (Exn EngineError "Access Denied: Cannot analyze table db.t"),
     mkWorld 1 [schemas_query]
       [(Page, Title "📊 Iceberg Metadata Insights");
        (Sidebar, Header "🔍 Select Table")]
       [("init_connection", [])]).
Proof.
  unfold run_main.
  rewrite (listing_error_escapes_main nat (scripted [] refused) nat
             (fun _ => Ok "7") (fun _ => Ok "7.00") unit (ret tt)
             (fun _ _ => ret every_key) (fun _ _ => ret (mkDataFrame [] []))
             (fun _ _ => ret (mkDataFrame [] [])) (fun _ _ _ => ret tt)
             (only AnalyzeTable) 0 0 (Some [("base", VStr "light")])
             (fun _ => None) fresh
             (mkWorld 0 [] [(Page, Title "📊 Iceberg Metadata Insights")]
                [("init_connection", [])])
             (Exn EngineError "Access Denied: Cannot analyze table db.t") 1
             eq_refl eq_refl).
  reflexivity.
Defined.

Lemma no_table_no_page_witness :
  run_main no_table every_key (only OptimizeManifests) fresh
  = (Ok tt,
     mkWorld 2 [schemas_query; tables_query (VStr "db")]
       [(Page, Title "📊 Iceberg Metadata Insights");
        (Sidebar, Header "🔍 Select Table");
        (Sidebar, Divider);
        (Sidebar, Header "⚙️ Table Actions");
        (Sidebar, Spinner "Optimizing manifests...")]
       [("init_connection", []);
        ("execute_alter_table", [VStr "db"; VNone; VStr "optimize_manifests"])]).
Proof.
  unfold run_main.
  rewrite (no_table_no_page nat (scripted no_table refused) nat
             (fun _ => Ok "7") (fun _ => Ok "7.00") unit (ret tt)
             (fun _ _ => ret every_key) (fun _ _ => ret (mkDataFrame [] []))
             (fun _ _ => ret (mkDataFrame [] [])) (fun _ _ _ => ret tt)
             (only OptimizeManifests) 0 0 (Some [("base", VStr "light")])
             (fun _ => None) fresh
             (mkWorld 2 [schemas_query; tables_query (VStr "db")]
                [(Page, Title "📊 Iceberg Metadata Insights");
                 (Sidebar, Header "🔍 Select Table")]
                [("init_connection", [])])
             (VStr "db") VNone eq_refl eq_refl).
  reflexivity.
Defined.

Lemma analyze_acts_without_a_table_witness :
  issued (snd (analyze_action nat (scripted no_table refused) (only AnalyzeTable)
                 (VStr "db") (selectbox [] 0) fresh))
  = ["ANALYZE db.None"].
Proof.
  exact (analyze_acts_without_a_table nat (scripted no_table refused)
           (only AnalyzeTable) 0 (VStr "db") fresh eq_refl).
Defined.

Lemma idle_sidebar_touches_nothing_witness :
  table_actions nat (scripted one_table refused) unit (fun _ _ _ => ret tt)
    (fun _ => false) (VStr "db") (VStr "t") fresh
  = (Ok tt,
     mkWorld 0 [] [(Sidebar, Divider); (Sidebar, Header "⚙️ Table Actions")] []).
Proof.
  exact (idle_sidebar_touches_nothing nat (scripted one_table refused) unit
           (fun _ _ _ => ret tt) (fun _ => false) (VStr "db") (VStr "t") fresh
           (fun _ => eq_refl)).
Defined.

Lemma overview_needs_every_key_witness :
  fst (table_overview nat nat (fun _ => Ok "7") (fun _ => Ok "7.00")
         (fun _ _ => ret without_rows) light (VStr "db") (VStr "t") fresh)
  = Raise (Exn KeyError "'Rows'")
  /\ fst (table_overview nat (option nat)
            (format_or_refuse "7") (format_or_refuse "7.00")
            (fun _ _ => ret files_unset) light (VStr "db") (VStr "t") fresh)
     = Raise (Exn TypeError
                "unsupported format string passed to NoneType.__format__")
  /\ fst (table_overview nat nat (fun _ => Ok "7") (fun _ => Ok "7.00")
            (fun _ _ => ret every_key) None (VStr "db") (VStr "t") fresh)
     = Raise (Exn AttributeError "'NoneType' object has no attribute 'get'")
  /\ length (screen (snd (table_overview nat nat
                            (fun _ => Ok "7") (fun _ => Ok "7.00")
                            (fun _ _ => ret every_key) light
                            (VStr "db") (VStr "t") fresh)))
     = 16.
Proof.
  split; [|split; [|split]].
  - exact (proj1 (overview_needs_every_key nat nat
                    (fun _ => Ok "7") (fun _ => Ok "7.00")
                    (fun _ _ => ret without_rows) light
                    (VStr "db") (VStr "t") fresh _ without_rows eq_refl)).
  - exact (proj1 (overview_needs_every_key nat (option nat)
                    (format_or_refuse "7") (format_or_refuse "7.00")
                    (fun _ _ => ret files_unset) light
                    (VStr "db") (VStr "t") fresh _ files_unset eq_refl)).
  - pose proof (proj1 (overview_needs_every_key nat nat
                         (fun _ => Ok "7") (fun _ => Ok "7.00")
                         (fun _ _ => ret every_key) None
                         (VStr "db") (VStr "t") fresh _ every_key eq_refl))
      as H.
    cbv beta iota zeta delta [first_failure metric_text every_key row1 row2
      app map metric_key metric_format fst snd dict_get String.eqb Ascii.eqb
      Bool.eqb] in H.
    exact (f_equal fst H).
  - pose proof (proj1 (overview_needs_every_key nat nat
                         (fun _ => Ok "7") (fun _ => Ok "7.00")
                         (fun _ _ => ret every_key) light
                         (VStr "db") (VStr "t") fresh _ every_key eq_refl))
      as H.
    cbv beta iota zeta delta [first_failure metric_text every_key row1 row2
      app map metric_key metric_format fst snd dict_get String.eqb Ascii.eqb
      Bool.eqb light] in H.
    exact (f_equal (fun r => length (screen (snd r))) H).
Defined.

Lemma fetch_stats_error_ends_the_page_witness :
  table_page nat (scripted one_table refused) nat
    (fun _ => Ok "7") (fun _ => Ok "7.00")
    (fun _ _ => raise (Exn EngineError "Query exceeded the time limit"))
    (fun _ _ => ret one_snapshot) (fun _ _ => ret (mkDataFrame [] []))
    light px_accepts (VStr "db") (VStr "t") fresh
  = (Raise (Exn EngineError "Query exceeded the time limit"),
     mkWorld 0 [] [(Page, Header "📋 db.t")] [("fetch_stats", [VStr "db"; VStr "t"])]).
Proof.
  exact (fetch_stats_error_ends_the_page nat (scripted one_table refused) nat
           (fun _ => Ok "7") (fun _ => Ok "7.00")
           (fun _ _ => raise (Exn EngineError "Query exceeded the time limit"))
           (fun _ _ => ret one_snapshot) (fun _ _ => ret (mkDataFrame [] []))
           light px_accepts (VStr "db") (VStr "t") fresh _
           (Exn EngineError "Query exceeded the time limit") eq_refl).
Defined.

Lemma snapshot_section_chart_or_notice_witness :
  (exists rest,
     screen (snd (snapshot_timeline nat (fun _ _ => ret one_snapshot) px_accepts
                    (VStr "db") (VStr "t") fresh))
     = (Page, Subheader "⏳ Snapshot Timeline")
       :: (Page, PlotlyChart
                   (Scatter one_snapshot "Committed At" "Operation" "Operation"
                      ["Snapshot ID"; "Parent ID"; "Summary"] "Snapshot Timeline"))
       :: (Page, Expander "Snapshot Details") :: rest)
  /\ snapshot_timeline nat (fun _ _ => ret sizes_misnamed)
       (px_needs_x (no_column "Committed At")) (VStr "db") (VStr "t") fresh
     = (Raise (Exn ValueError (no_column "Committed At")),
        mkWorld 0 [] [(Page, Subheader "⏳ Snapshot Timeline")]
          [("load_snapshot_history", [VStr "db"; VStr "t"])])
  /\ snapshot_timeline nat (fun _ _ => ret (mkDataFrame [] [[]; []]))
       (px_needs_x (no_column "Committed At")) (VStr "db") (VStr "t") fresh
     = (Ok tt,
        mkWorld 0 []
          [(Page, Subheader "⏳ Snapshot Timeline");
           (Page, Info "No snapshot history available.")]
          [("load_snapshot_history", [VStr "db"; VStr "t"])]).
Proof.
  split; [|split].
  - destruct (snapshot_section_chart_or_notice nat
                (fun _ _ => ret one_snapshot) px_accepts
                (VStr "db") (VStr "t") fresh fresh one_snapshot eq_refl)
      as [rest H].
    exists rest. now rewrite H.
  - exact (snapshot_section_chart_or_notice nat
             (fun _ _ => ret sizes_misnamed) (px_needs_x (no_column "Committed At"))
             (VStr "db") (VStr "t") fresh fresh sizes_misnamed eq_refl).
  - exact (snapshot_section_chart_or_notice nat
             (fun _ _ => ret (mkDataFrame [] [[]; []]))
             (px_needs_x (no_column "Committed At"))
             (VStr "db") (VStr "t") fresh fresh (mkDataFrame [] [[]; []])
             eq_refl).
Defined.

Lemma file_section_chart_or_notice_witness :
  file_size_distribution nat (fun _ _ => ret sizes_misnamed)
    (px_needs_x (no_column "Size")) (VStr "db") (VStr "t") fresh
  = (Raise (Exn ValueError (no_column "Size")),
     mkWorld 0 [] [(Page, Subheader "📂 File Size Distribution")]
       [("load_file_details", [VStr "db"; VStr "t"])])
  /\ (exists rest,
        screen (snd (file_size_distribution nat
                       (fun _ _ => ret (mkDataFrame ["Size"] [[VInt 4096]]))
                       (px_needs_x (no_column "Size")) (VStr "db") (VStr "t") fresh))
        = (Page, Subheader "📂 File Size Distribution")
          :: (Page, PlotlyChart
                      (Histogram (mkDataFrame ["Size"] [[VInt 4096]]) "Size"
                         "File Size Distribution (bytes)" 50))
          :: (Page, Expander "Detailed File Information") :: rest)
  /\ file_size_distribution nat (fun _ _ => ret (mkDataFrame ["Size"] []))
       (px_needs_x (no_column "Size")) (VStr "db") (VStr "t") fresh
     = (Ok tt,
        mkWorld 0 []
          [(Page, Subheader "📂 File Size Distribution");
           (Page, Info "No file details available.")]
          [("load_file_details", [VStr "db"; VStr "t"])]).
Proof.
  split; [|split].
  - exact (file_section_chart_or_notice nat
             (fun _ _ => ret sizes_misnamed) (px_needs_x (no_column "Size"))
             (VStr "db") (VStr "t") fresh fresh sizes_misnamed eq_refl).
  - destruct (file_section_chart_or_notice nat
                (fun _ _ => ret (mkDataFrame ["Size"] [[VInt 4096]]))
                (px_needs_x (no_column "Size"))
                (VStr "db") (VStr "t") fresh fresh
                (mkDataFrame ["Size"] [[VInt 4096]]) eq_refl)
      as [rest H].
    exists rest. now rewrite H.
  - exact (file_section_chart_or_notice nat
             (fun _ _ => ret (mkDataFrame ["Size"] []))
             (px_needs_x (no_column "Size"))
             (VStr "db") (VStr "t") fresh fresh (mkDataFrame ["Size"] [])
             eq_refl).
Defined.

Lemma ddl_tab_shows_the_first_cell_witness :
  screen (snd (ddl_tab nat (scripted ddl_answer refused) (VStr "db") (VStr "t") fresh))
  = [(Tab 0, Code (VStr "CREATE TABLE db.t (id bigint)") "sql")].
Proof.
  rewrite (ddl_tab_shows_the_first_cell nat (scripted ddl_answer refused)
             (VStr "db") (VStr "t") fresh _ 1 eq_refl).
  reflexivity.
Defined.

Lemma view_tab_frame_or_shape_error_witness :
  screen (snd (view_tab nat (scripted short_manifests refused) Manifests
                 (VStr "db") (VStr "t") fresh))
  = [(Tab 3,
      Error "Error loading manifests: 11 columns passed, passed data had 10 columns")]
  /\ screen (snd (view_tab nat (scripted no_manifests refused) Manifests
                    (VStr "db") (VStr "t") fresh))
     = [(Tab 3, Dataframe (mkDataFrame (columns Manifests) []))].
Proof.
  split.
  - rewrite (proj2 (view_tab_frame_or_shape_error nat
                      (scripted short_manifests refused) Manifests
                      (VStr "db") (VStr "t") fresh [ten_cells] 1 eq_refl));
      [reflexivity|discriminate|].
    cbn. lia.
  - rewrite (proj1 (view_tab_frame_or_shape_error nat
                      (scripted no_manifests refused) Manifests
                      (VStr "db") (VStr "t") fresh [] 1 eq_refl) eq_refl).
    reflexivity.
Defined.

Lemma main_call_log_witness :
  called (snd (run_main one_table every_key (only ExpireSnapshots) fresh))
  = [("init_connection", []);
     ("execute_alter_table",
      [VStr "db"; VStr "t"; VStr "expire_snapshots(retention_threshold => '7d')"]);
     ("fetch_stats", [VStr "db"; VStr "t"]);
     ("load_snapshot_history", [VStr "db"; VStr "t"]);
     ("load_file_details", [VStr "db"; VStr "t"])].
Proof.
  unfold run_main.
  rewrite (main_call_log nat (scripted one_table refused) nat (fun _ => Ok "7")
             (fun _ => Ok "7.00") unit (ret tt) (fun _ _ => ret every_key)
             (fun _ _ => ret (mkDataFrame [] [])) (fun _ _ => ret (mkDataFrame [] []))
             (fun _ _ _ => ret tt) (only ExpireSnapshots) 0 0
             (Some [("base", VStr "light")]) (fun _ => None)
             fresh
             (mkWorld 2 [schemas_query; tables_query (VStr "db")]
                [(Page, Title "📊 Iceberg Metadata Insights");
                 (Sidebar, Header "🔍 Select Table")]
                [("init_connection", [])])
             _ (VStr "db") (VStr "t") eq_refl
             (surjective_pairing _)).
  - reflexivity.
Defined.

End AppExtras.
